(** * cert-manager-webhook-dode: the DNS-01 solver of [main.go]

    A shallow embedding of the solver for the do.de DNS provider
    ([dodeDNSProviderSolver]): configuration decoding ([loadConfig]),
    credential resolution ([getAPIKey]), the provider call ([makeRequest])
    and the two webhook operations ([Present], [CleanUp]).

    Go strings are byte sequences, so they are modelled by [string] (a list
    of 8-bit characters).  A Go [error] is modelled by its [Error()] text;
    a nil error is [None].  The collaborators the solver reaches outside
    [main.go] (the Kubernetes clientset, the HTTP transport, encoding/json
    and the Unicode tables of strconv) are gathered in records and taken as
    parameters.  klog output is diagnostic only and is not modelled. *)

From Stdlib Require Import String Ascii ZArith Lia Bool List.
From stdpp Require Import gmap strings.

(** ** Strings: the part of Go's [strings] package the solver uses *)

Module strings.

(** [s[i:]], for [i <= len(s)]. *)
Fixpoint drop (i : nat) (s : string) : string :=
  match i, s with
  | O, _ => s
  | S _, EmptyString => EmptyString
  | S i', String _ s' => drop i' s'
  end.

(** [s[:i]], for [i <= len(s)]. *)
Fixpoint take (i : nat) (s : string) : string :=
  match i, s with
  | O, _ => EmptyString
  | S _, EmptyString => EmptyString
  | S i', String c s' => String c (take i' s')
  end.

(** [func HasSuffix(s, suffix string) bool {
       return len(s) >= len(suffix) && s[len(s)-len(suffix):] == suffix }] *)
Definition HasSuffix (s suffix : string) : bool :=
  (String.length suffix <=? String.length s)%nat
  && String.eqb (drop (String.length s - String.length suffix) s) suffix.

(** [func TrimSuffix(s, suffix string) string {
       if HasSuffix(s, suffix) { return s[:len(s)-len(suffix)] }
       return s }] *)
Definition TrimSuffix (s suffix : string) : string :=
  if HasSuffix s suffix
  then take (String.length s - String.length suffix) s
  else s.

End strings.

(** ** [removeDOT] (main.go, lines 221-226) *)

Definition removeDOT (fqdnURL : string) : string :=
  if strings.HasSuffix fqdnURL "."
  then strings.TrimSuffix fqdnURL "."
  else fqdnURL.

(** ** Go's [unicode/utf8] and [strconv]: the code behind the [%q] verb

    [fmt]'s [%q] on a string is [strconv.Quote].  It is the library's code,
    modelled here because three of the solver's error messages are built
    with it. *)

Module utf8.
Local Open Scope Z_scope.

Definition RuneError : Z := 0xFFFD.
Definition RuneSelf : Z := 0x80.
Definition MaxRune : Z := 0x10FFFF.
Definition surrogateMin : Z := 0xD800.
Definition surrogateMax : Z := 0xDFFF.

(** The numeric value of a byte, and Go's conversion [byte(x)]. *)
Definition byteZ (c : ascii) : Z := Z.of_N (N_of_ascii c).
Definition byte (x : Z) : ascii := ascii_of_N (Z.to_N (x mod 256)).

(** The table [first] with [acceptRanges], for lead bytes [>= RuneSelf]:
    the length of the sequence and the range accepted for its second byte;
    [None] for the bytes that start no sequence. *)
Definition first (s0 : Z) : option (nat * Z * Z) :=
  if s0 <? 0xC2 then None
  else if s0 <? 0xE0 then Some (2%nat, 0x80, 0xBF)
  else if s0 =? 0xE0 then Some (3%nat, 0xA0, 0xBF)
  else if s0 <? 0xED then Some (3%nat, 0x80, 0xBF)
  else if s0 =? 0xED then Some (3%nat, 0x80, 0x9F)
  else if s0 <? 0xF0 then Some (3%nat, 0x80, 0xBF)
  else if s0 =? 0xF0 then Some (4%nat, 0x90, 0xBF)
  else if s0 <? 0xF4 then Some (4%nat, 0x80, 0xBF)
  else if s0 =? 0xF4 then Some (4%nat, 0x80, 0x8F)
  else None.

Definition continuation (b : Z) : bool := (0x80 <=? b) && (b <=? 0xBF).

(** [func DecodeRuneInString(s string) (rune, int)].  After the test
    [n < sz] the bytes read are there; the cases of an empty rest are for
    the [match] only. *)
Definition DecodeRuneInString (s : string) : Z * nat :=
  match s with
  | EmptyString => (RuneError, 0%nat)
  | String c0 t0 =>
    let s0 := byteZ c0 in
    if s0 <? RuneSelf then (s0, 1%nat) else
    match first s0 with
    | None => (RuneError, 1%nat)
    | Some (sz, lo, hi) =>
      if (String.length s <? sz)%nat then (RuneError, 1%nat) else
      match t0 with
      | EmptyString => (RuneError, 1%nat)
      | String c1 t1 =>
        let s1 := byteZ c1 in
        if (s1 <? lo) || (hi <? s1) then (RuneError, 1%nat) else
        if (sz <=? 2)%nat
        then (Z.lor (Z.shiftl (Z.land s0 0x1F) 6) (Z.land s1 0x3F), 2%nat) else
        match t1 with
        | EmptyString => (RuneError, 1%nat)
        | String c2 t2 =>
          let s2 := byteZ c2 in
          if negb (continuation s2) then (RuneError, 1%nat) else
          if (sz <=? 3)%nat
          then (Z.lor (Z.lor (Z.shiftl (Z.land s0 0x0F) 12)
                             (Z.shiftl (Z.land s1 0x3F) 6))
                      (Z.land s2 0x3F), 3%nat) else
          match t2 with
          | EmptyString => (RuneError, 1%nat)
          | String c3 _ =>
            let s3 := byteZ c3 in
            if negb (continuation s3) then (RuneError, 1%nat) else
            (Z.lor (Z.lor (Z.lor (Z.shiftl (Z.land s0 0x07) 18)
                                 (Z.shiftl (Z.land s1 0x3F) 12))
                          (Z.shiftl (Z.land s2 0x3F) 6))
                   (Z.land s3 0x3F), 4%nat)
          end
        end
      end
    end
  end.

(** [func ValidRune(r rune) bool] *)
Definition ValidRune (r : Z) : bool :=
  ((0 <=? r) && (r <? surrogateMin)) || ((surrogateMax <? r) && (r <=? MaxRune)).

Definition cont (x : Z) : ascii := byte (Z.lor 0x80 (Z.land x 0x3F)).

(** [func AppendRune(p []byte, r rune) []byte], the bytes appended. *)
Definition AppendRune (r : Z) : string :=
  if (0 <=? r) && (r <=? 0x7F) then String (byte r) "" else
  if (0 <=? r) && (r <=? 0x7FF)
  then String (byte (Z.lor 0xC0 (Z.shiftr r 6))) (String (cont r) "") else
  let r3 := if ValidRune r then r else RuneError in
  if ValidRune r && negb (r <=? 0xFFFF)
  then String (byte (Z.lor 0xF0 (Z.shiftr r 18)))
         (String (cont (Z.shiftr r 12))
            (String (cont (Z.shiftr r 6)) (String (cont r) "")))
  else String (byte (Z.lor 0xE0 (Z.shiftr r3 12)))
         (String (cont (Z.shiftr r3 6)) (String (cont r3) "")).

End utf8.

Module strconv.
Local Open Scope Z_scope.

Definition lowerhex : string := "0123456789abcdef".

(** [lowerhex[i]], for [0 <= i < 16]. *)
Definition hexdigit (i : Z) : ascii :=
  match String.get (Z.to_nat i) lowerhex with
  | Some c => c
  | None => "0"%char
  end.

(** The double quote and the backslash. *)
Definition dquote : ascii := "034"%char.
Definition backslash : ascii := "092"%char.

Section Quote.

(** [strconv.IsPrint] answers from the tables [isPrint16], [isNotPrint16],
    [isPrint32] and [isNotPrint32] for the runes above Latin-1.  The tables
    are data of the Go distribution; their answer is a parameter. *)
Variable isPrintTables : Z -> bool.

(** [func IsPrint(r rune) bool] *)
Definition IsPrint (r : Z) : bool :=
  if r <=? 0xFF then
    if (0x20 <=? r) && (r <=? 0x7E) then true
    else if (0xA1 <=? r) && (r <=? 0xFF) then negb (r =? 0xAD)
    else false
  else isPrintTables r.

(** The digits of [r], [n] of them, most significant first:
    [for s := 4*(n-1); s >= 0; s -= 4 { lowerhex[r>>uint(s)&0xF] }]. *)
Fixpoint hexdigits (n : nat) (r : Z) : string :=
  match n with
  | O => ""
  | S n' => String (hexdigit (Z.land (Z.shiftr r (4 * Z.of_nat n')) 0xF))
                   (hexdigits n' r)
  end.

(** [func appendEscapedRune(buf []byte, r rune, quote byte,
                            ASCIIonly, graphicOnly bool) []byte]
    with the double quote for [quote] and both flags false, as [Quote] calls
    it: the bytes appended to [buf].  (The byte 0x7f is written [\x7f], as
    the current library does.) *)
Definition appendEscapedRune (r : Z) : string :=
  if (r =? utf8.byteZ dquote) || (r =? utf8.byteZ backslash)
  then String backslash (String (utf8.byte r) "")
  else if IsPrint r then utf8.AppendRune r
  else if r =? 7 then "\a"
  else if r =? 8 then "\b"
  else if r =? 12 then "\f"
  else if r =? 10 then "\n"
  else if r =? 13 then "\r"
  else if r =? 9 then "\t"
  else if r =? 11 then "\v"
  else if (r <? 0x20) || (r =? 0x7F)
  then "\x" +:+ String (hexdigit (Z.shiftr (utf8.byteZ (utf8.byte r)) 4))
                 (String (hexdigit (Z.land (utf8.byteZ (utf8.byte r)) 0xF)) "")
  else if negb (utf8.ValidRune r) then "\u" +:+ hexdigits 4 utf8.RuneError
  else if r <? 0x10000 then "\u" +:+ hexdigits 4 r
  else "\U" +:+ hexdigits 8 r.

(** The loop of [appendQuotedWith]:
    [for width := 0; len(s) > 0; s = s[width:] { ... }].
    [skip] counts the bytes of the current rune still to step over, so that
    the recursion is on the string. *)
Fixpoint quoteLoop (skip : nat) (s : string) : string :=
  match s with
  | EmptyString => ""
  | String c rest =>
    match skip with
    | S k => quoteLoop k rest
    | O =>
      let '(r, width) :=
        if utf8.byteZ c <? utf8.RuneSelf then (utf8.byteZ c, 1%nat)
        else utf8.DecodeRuneInString s in
      if (width =? 1)%nat && (r =? utf8.RuneError)
      then "\x" +:+ String (hexdigit (Z.shiftr (utf8.byteZ c) 4))
                     (String (hexdigit (Z.land (utf8.byteZ c) 0xF))
                        (quoteLoop O rest))
      else appendEscapedRune r +:+ quoteLoop (width - 1) rest
    end
  end.

(** [func Quote(s string) string] *)
Definition Quote (s : string) : string :=
  String dquote (quoteLoop O s +:+ String dquote "").

End Quote.

(** Bytes that [Quote] copies unchanged: printable ASCII other than the
    double quote and the backslash. *)
Definition plainByte (c : ascii) : bool :=
  (0x20 <=? utf8.byteZ c) && (utf8.byteZ c <=? 0x7E)
  && negb (utf8.byteZ c =? 0x22) && negb (utf8.byteZ c =? 0x5C).

Fixpoint plain (s : string) : bool :=
  match s with
  | EmptyString => true
  | String c s' => plainByte c && plain s'
  end.

End strconv.

(** ** The data model *)

(** A Go [error]: [None] is nil, [Some msg] an error whose text is [msg]. *)
Definition error : Type := option string.

(** The result of a library call that hands back a pointer and an error,
    exactly one of them non-nil. *)
Inductive result (A : Type) : Type :=
| ok (a : A)
| fail (err : string).
Arguments ok {A} a.
Arguments fail {A} err.

(** [extapi.JSON]: the raw provider-specific configuration. *)
Record JSON := { Raw : string }.

(** [cmmeta.SecretKeySelector]: the embedded [LocalObjectReference] gives
    [Name]. *)
Record SecretKeySelector := { Name : string; Key : string }.

Record dodeDNSProviderConfig := { APITokenSecretRef : SecretKeySelector }.

(** The fields of [v1alpha1.ChallengeRequest] that the solver reads
    ([ChKey] is its field [Key], the TXT value); [Config] is a pointer, nil
    when no configuration was given. *)
Record ChallengeRequest := {
  ResolvedFQDN : string;
  ChKey : string;
  ResourceNamespace : string;
  Config : option JSON
}.

(** [corev1.Secret], of which only [Data map[string][]byte] is read. *)
Record Secret := { Data : gmap string string }.

(** What the solver asks of [*kubernetes.Clientset]:
    [CoreV1().Secrets(namespace).Get(ctx, name, opts)]. *)
Record Clientset := { Secrets_Get : string -> string -> result Secret }.

(** [client] is nil until [Initialize] has run. *)
Record dodeDNSProviderSolver := { client : option Clientset }.

(** The local type [APIResponse] of [makeRequest]. *)
Record APIResponse := { Success : bool; Error : string }.

(** [http.Response], of which [makeRequest] reads the body only. *)
Record Response := { StatusCode : Z; Body : string }.

(** The collaborators outside [main.go].  [S] is the state of the remote
    provider (its DNS zone); one call of [http.Client.Get] may change it.
    - [http_Get url]: [client.Get(url)], a response or a transport error
      (the 30 second timeout included);
    - [json_Unmarshal raw cfg]: [json.Unmarshal(raw, &cfg)], the value left
      in [cfg] and the error;
    - [json_Decode body r]: [json.NewDecoder(body).Decode(&r)];
    - [isPrintTables]: the tables of [strconv.IsPrint]. *)
Record Env (S : Type) := {
  http_Get : string -> S -> result Response * S;
  json_Unmarshal : string -> dodeDNSProviderConfig -> dodeDNSProviderConfig * error;
  json_Decode : string -> APIResponse -> APIResponse * error;
  isPrintTables : Z -> bool
}.
Arguments http_Get {S} _ _ _.
Arguments json_Unmarshal {S} _ _ _.
Arguments json_Decode {S} _ _ _.
Arguments isPrintTables {S} _ _.

(** The zero values of the two decoded structures. *)
Definition zeroConfig : dodeDNSProviderConfig :=
  {| APITokenSecretRef := {| Name := ""; Key := "" |} |}.

Definition zeroAPIResponse : APIResponse := {| Success := false; Error := "" |}.

(** ** Effects: the remote state, the requests issued, and panics *)

(** [requests] lists the URLs handed to [client.Get], oldest first. *)
Record World (S : Type) := { remote : S; requests : list string }.
Arguments remote {S} _.
Arguments requests {S} _.

Inductive outcome (A : Type) : Type :=
| Returns (a : A)
| Panics (msg : string).
Arguments Returns {A} a.
Arguments Panics {A} msg.

Definition M (S A : Type) : Type := World S -> outcome A * World S.

Definition ret {S A : Type} (a : A) : M S A := fun w => (Returns a, w).

Definition bind {S A B : Type} (m : M S A) (k : A -> M S B) : M S B :=
  fun w =>
    match m w with
    | (Returns a, w') => k a w'
    | (Panics msg, w') => (Panics msg, w')
    end.

Definition panic {S A : Type} (msg : string) : M S A := fun w => (Panics msg, w).

Notation "x <- c1 ;; c2" := (bind c1 (fun x => c2))
  (at level 100, c1 at next level, right associativity).

(** ** The solver (main.go) *)

(** [const DodeAPIURL] (line 46). *)
Definition DodeAPIURL : string := "https://www.do.de/api/letsencrypt".

(** [Name] (lines 79-81). *)
Definition SolverName (c : dodeDNSProviderSolver) : string := "dode".

(** [Initialize] (lines 141-150), given what [kubernetes.NewForConfig]
    answers: the solver afterwards and the error returned. *)
Definition Initialize (newForConfig : result Clientset)
    (c : dodeDNSProviderSolver) : dodeDNSProviderSolver * error :=
  match newForConfig with
  | fail err => (c, Some err)
  | ok cl => ({| client := Some cl |}, None)
  end.

Section Solver.

Context {S : Type} (env : Env S).

(** The [%q] verb on a string. *)
Definition fmt_q (s : string) : string := strconv.Quote (isPrintTables env) s.

(** [client.Get(url)]: the request is recorded and the provider answers. *)
Definition client_Get (url : string) : M S (result Response) :=
  fun w =>
    let '(r, s') := http_Get env url (remote w) in
    (Returns r, {| remote := s'; requests := requests w ++ [url] |}).

(** [loadConfig] (lines 154-165). *)
Definition loadConfig (cfgJSON : option JSON) : dodeDNSProviderConfig * error :=
  let cfg := zeroConfig in
  match cfgJSON with
  | None => (cfg, None)
  | Some j =>
    match json_Unmarshal env (Raw j) cfg with
    | (cfg, Some err) => (cfg, Some ("error decoding solver config: " +:+ err))
    | (cfg, None) => (cfg, None)
    end
  end.

(** [getAPIKey] (lines 168-186).  Calling a method of the nil [c.client]
    panics. *)
Definition getAPIKey (c : dodeDNSProviderSolver) (cfg : dodeDNSProviderConfig)
    (namespace : string) : M S (string * error) :=
  let secretName := Name (APITokenSecretRef cfg) in
  match client c with
  | None => panic "runtime error: invalid memory address or nil pointer dereference"
  | Some cl =>
    match Secrets_Get cl namespace secretName with
    | fail err =>
      ret ("", Some ("unable to get secret `" +:+ secretName +:+ "`; " +:+ err))
    | ok sec =>
      match Data sec !! Key (APITokenSecretRef cfg) with
      | None =>
        ret ("", Some ("key " +:+ fmt_q (Key (APITokenSecretRef cfg))
                       +:+ " not found in secret "
                       +:+ String strconv.dquote
                             (Name (APITokenSecretRef cfg) +:+ "/" +:+ namespace
                              +:+ String strconv.dquote "")))
      | Some secBytes =>
        let apiKey := secBytes in
        ret (apiKey, None)
      end
    end
  end.

(** [makeRequest] (lines 188-219). *)
Definition makeRequest (method uri : string) : M S (bool * error) :=
  let url := DodeAPIURL +:+ uri in
  resp <- client_Get url ;;
  match resp with
  | fail err =>
    ret (false, Some ("Error querying DODE API for " +:+ method +:+ " "
                      +:+ fmt_q url +:+ " -> " +:+ err))
  | ok resp =>
    let r := zeroAPIResponse in
    match json_Decode env (Body resp) r with
    | (r, Some err) => ret (false, Some err)
    | (r, None) =>
      if negb (Success r)
      then ret (false, Some ("DODE API error for " +:+ method +:+ " "
                             +:+ fmt_q uri +:+ " " +:+ Error r))
      else ret (Success r, None)
    end
  end.

(** The two request URIs, [fmt.Sprintf] with [%s] verbs (lines 99, 124). *)
Definition presentURI (apiKey fqdn key : string) : string :=
  "?token=" +:+ apiKey +:+ "&domain=" +:+ removeDOT fqdn +:+ "&value=" +:+ key.

Definition cleanUpURI (apiKey fqdn : string) : string :=
  "?token=" +:+ apiKey +:+ "&domain=" +:+ removeDOT fqdn +:+ "&action=delete".

(** [Present] (lines 88-105). *)
Definition Present (c : dodeDNSProviderSolver) (ch : ChallengeRequest) : M S error :=
  match loadConfig (Config ch) with
  | (cfg, Some err) => ret (Some err)
  | (cfg, None) =>
    r <- getAPIKey c cfg (ResourceNamespace ch) ;;
    let '(apiKey, err) := r in
    match err with
    | Some err => ret (Some err)
    | None =>
      r <- makeRequest "GET" (presentURI apiKey (ResolvedFQDN ch) (ChKey ch)) ;;
      let '(_, err) := r in
      match err with
      | Some err => ret (Some err)
      | None => ret None
      end
    end
  end.

(** [CleanUp] (lines 113-130). *)
Definition CleanUp (c : dodeDNSProviderSolver) (ch : ChallengeRequest) : M S error :=
  match loadConfig (Config ch) with
  | (cfg, Some err) => ret (Some err)
  | (cfg, None) =>
    r <- getAPIKey c cfg (ResourceNamespace ch) ;;
    let '(apiKey, err) := r in
    match err with
    | Some err => ret (Some err)
    | None =>
      r <- makeRequest "GET" (cleanUpURI apiKey (ResolvedFQDN ch)) ;;
      let '(_, err) := r in
      match err with
      | Some err => ret (Some err)
      | None => ret None
      end
    end
  end.

End Solver.

(** ** Notions used to state the properties *)

(** [substr] occurs in [s] as a contiguous run of bytes: the text [s]
    includes [substr]. *)
Definition Contains (s substr : string) : Prop :=
  exists pre post, s = pre +:+ substr +:+ post.

(** A provider is idempotent when a request repeated right after itself is
    answered as before and leaves the remote state as it was. *)
Definition idempotent_provider {S : Type} (env : Env S) : Prop :=
  forall url s,
    http_Get env url (snd (http_Get env url s)) = http_Get env url s.

(** The environment whose provider sends the same bodies under other
    status codes. *)
Definition with_status {S : Type} (f : Z -> Z) (env : Env S) : Env S :=
  {| http_Get := fun url s =>
       match http_Get env url s with
       | (ok resp, s') =>
         (ok {| StatusCode := f (StatusCode resp); Body := Body resp |}, s')
       | (fail err, s') => (fail err, s')
       end;
     json_Unmarshal := json_Unmarshal env;
     json_Decode := json_Decode env;
     isPrintTables := isPrintTables env |}.

(** The rule by which the answer to the request for [uri] decides the
    operation's result [res]: a transport failure, a body that does not
    decode and [success=false] are errors, [success=true] is success. *)
Definition response_rule {S : Type} (env : Env S) (uri : string) (w : World S)
    (res : outcome error) : Prop :=
  match fst (http_Get env (DodeAPIURL +:+ uri) (remote w)) with
  | fail err =>
    exists msg, res = Returns (Some msg) /\ Contains msg err
  | ok resp =>
    match json_Decode env (Body resp) zeroAPIResponse with
    | (_, Some err) => res = Returns (Some err)
    | (r, None) =>
      if Success r then res = Returns None
      else exists msg, res = Returns (Some msg) /\ Contains msg (Error r)
    end
  end.

(** The answer to the request for [uri] is a body that decodes to
    [success=true]. *)
Definition answers_success {S : Type} (env : Env S) (uri : string) (w : World S)
    : Prop :=
  exists resp s' r,
    http_Get env (DodeAPIURL +:+ uri) (remote w) = (ok resp, s')
    /\ json_Decode env (Body resp) zeroAPIResponse = (r, None)
    /\ Success r = true.

(** ** A concrete environment, for examples *)

Module demo.

Definition dq : string := String strconv.dquote "".

(** [{"success": true}] *)
Definition body_success : string :=
  "{" +:+ dq +:+ "success" +:+ dq +:+ ": true}".

(** [{"success": false, "error": "rate limited"}] *)
Definition body_rate_limited : string :=
  "{" +:+ dq +:+ "success" +:+ dq +:+ ": false, "
  +:+ dq +:+ "error" +:+ dq +:+ ": " +:+ dq +:+ "rate limited" +:+ dq +:+ "}".

(** [{"apiTokenSecretRef": {"name": "dode-credentials", "key": "api-token"}}] *)
Definition config_raw : string :=
  "{" +:+ dq +:+ "apiTokenSecretRef" +:+ dq +:+ ": {"
  +:+ dq +:+ "name" +:+ dq +:+ ": " +:+ dq +:+ "dode-credentials" +:+ dq +:+ ", "
  +:+ dq +:+ "key" +:+ dq +:+ ": " +:+ dq +:+ "api-token" +:+ dq +:+ "}}".

(** Decoders that know the three documents above and reject the rest. *)
Definition Unmarshal (raw : string) (cfg : dodeDNSProviderConfig)
    : dodeDNSProviderConfig * error :=
  if String.eqb raw config_raw
  then ({| APITokenSecretRef :=
             {| Name := "dode-credentials"; Key := "api-token" |} |}, None)
  else (cfg, Some "unexpected end of JSON input").

Definition Decode (body : string) (r : APIResponse) : APIResponse * error :=
  if String.eqb body body_success
  then ({| Success := true; Error := Error r |}, None)
  else if String.eqb body body_rate_limited
  then ({| Success := false; Error := "rate limited" |}, None)
  else (r, Some "invalid character '<' looking for beginning of value").

(** A provider that answers by [answer] and remembers the URLs it has
    applied, each once. *)
Definition provider (answer : string -> result Response) (url : string)
    (zone : list string) : result Response * list string :=
  (answer url,
   if existsb (String.eqb url) zone then zone else zone ++ [url]).

(** The examples use ASCII text only, on which the tables of
    [strconv.IsPrint] are not consulted. *)
Definition env (answer : string -> result Response) : Env (list string) :=
  {| http_Get := provider answer;
     json_Unmarshal := Unmarshal;
     json_Decode := Decode;
     isPrintTables := fun _ => false |}.

(** A secret store holding one secret, and a clientset reading it. *)
Definition store : gmap (string * string) Secret :=
  {[ ("cert-manager", "dode-credentials") :=
       {| Data := {[ "api-token" := "s3cr3t" ]} |} ]}.

Definition clientset : Clientset :=
  {| Secrets_Get := fun namespace name =>
       match store !! (namespace, name) with
       | Some sec => ok sec
       | None => fail ("secrets " +:+ dq +:+ name +:+ dq +:+ " not found")
       end |}.

Definition solver : dodeDNSProviderSolver := {| client := Some clientset |}.

Definition challenge : ChallengeRequest :=
  {| ResolvedFQDN := "_acme-challenge.example.com.";
     ChKey := "txt-value-123";
     ResourceNamespace := "cert-manager";
     Config := Some {| Raw := config_raw |} |}.

Definition world0 : World (list string) := {| remote := []; requests := [] |}.

Definition accepts (url : string) : result Response :=
  ok {| StatusCode := 200; Body := body_success |}.

Definition rejects (url : string) : result Response :=
  ok {| StatusCode := 200; Body := body_rate_limited |}.

Definition unreachable (url : string) : result Response :=
  fail "dial tcp: connection refused".

Definition garbles (url : string) : result Response :=
  ok {| StatusCode := 502; Body := "<html>Bad Gateway</html>" |}.

End demo.

(** ** Further concrete pieces, for the edge cases *)

Module edge.

(** A decoder that leaves the target as it finds it, as [encoding/json]
    does on the document [{}], and rejects the rest. *)
Definition Decode (body : string) (r : APIResponse) : APIResponse * error :=
  if String.eqb body "{}" then (r, None)
  else (r, Some "unexpected end of JSON input").

Definition env : Env (list string) :=
  {| http_Get := demo.provider
                   (fun _ => ok {| StatusCode := 200; Body := "{}" |});
     json_Unmarshal := demo.Unmarshal;
     json_Decode := Decode;
     isPrintTables := fun _ => false |}.

(** A secret whose entry is there and empty. *)
Definition clientset : Clientset :=
  {| Secrets_Get := fun namespace name =>
       if String.eqb name "dode-credentials"
       then ok {| Data := {[ "api-token" := "" ]} |}
       else fail ("secrets " +:+ demo.dq +:+ name +:+ demo.dq +:+ " not found")
  |}.

(** A challenge that carries no configuration. *)
Definition bare : ChallengeRequest :=
  {| ResolvedFQDN := "_acme-challenge.example.com.";
     ChKey := "txt-value-123";
     ResourceNamespace := "cert-manager";
     Config := None |}.

End edge.

(** ** Facts about strings *)

Lemma append_cons (c : ascii) (s t : string) :
  String c s +:+ t = String c (s +:+ t).
Proof. reflexivity. Qed.

Lemma append_nil_r (s : string) : s +:+ "" = s.
Proof.
  induction s as [|c s IH]; [reflexivity|].
  now rewrite append_cons, IH.
Qed.

Lemma append_assoc (s t u : string) : (s +:+ t) +:+ u = s +:+ t +:+ u.
Proof.
  induction s as [|c s IH]; [reflexivity|].
  now rewrite !append_cons, IH.
Qed.

Lemma length_append (s t : string) :
  String.length (s +:+ t) = (String.length s + String.length t)%nat.
Proof.
  induction s as [|c s IH]; [reflexivity|].
  rewrite append_cons. simpl. now rewrite IH.
Qed.

Lemma drop_append (s t : string) : strings.drop (String.length s) (s +:+ t) = t.
Proof.
  induction s as [|c s IH]; [now destruct t|].
  rewrite append_cons. exact IH.
Qed.

Lemma take_append (s t : string) : strings.take (String.length s) (s +:+ t) = s.
Proof.
  induction s as [|c s IH]; [now destruct t|].
  rewrite append_cons. simpl. now rewrite IH.
Qed.

Lemma take_drop (i : nat) (s : string) : strings.take i s +:+ strings.drop i s = s.
Proof.
  revert s; induction i as [|i IH]; intros [|c s]; simpl; try reflexivity.
  now rewrite append_cons, IH.
Qed.

Lemma append_inj_r (s t u : string) : s +:+ u = t +:+ u -> s = t.
Proof.
  intros H.
  assert (Hlen : String.length s = String.length t).
  { apply (f_equal String.length) in H. rewrite !length_append in H. lia. }
  rewrite <- (take_append s u), <- (take_append t u), H, Hlen. reflexivity.
Qed.

(** [HasSuffix] decides "ends with". *)
Lemma HasSuffix_spec (s suffix : string) :
  strings.HasSuffix s suffix = true <-> exists p, s = p +:+ suffix.
Proof.
  unfold strings.HasSuffix. rewrite andb_true_iff, Nat.leb_le, String.eqb_eq.
  split.
  - intros [Hlen Hdrop].
    exists (strings.take (String.length s - String.length suffix) s).
    pose proof (take_drop (String.length s - String.length suffix) s) as E.
    rewrite Hdrop in E. now symmetry.
  - intros [p ->]. rewrite length_append. split; [lia|].
    replace (String.length p + String.length suffix - String.length suffix)%nat
      with (String.length p) by lia.
    apply drop_append.
Qed.

Lemma TrimSuffix_append (p suffix : string) :
  strings.TrimSuffix (p +:+ suffix) suffix = p.
Proof.
  unfold strings.TrimSuffix.
  replace (strings.HasSuffix (p +:+ suffix) suffix) with true
    by (symmetry; apply HasSuffix_spec; now exists p).
  rewrite length_append.
  replace (String.length p + String.length suffix - String.length suffix)%nat
    with (String.length p) by lia.
  apply take_append.
Qed.

Lemma removeDOT_dot (d : string) : removeDOT (d +:+ ".") = d.
Proof.
  unfold removeDOT.
  replace (strings.HasSuffix (d +:+ ".") ".") with true
    by (symmetry; apply HasSuffix_spec; now exists d).
  apply TrimSuffix_append.
Qed.

Lemma removeDOT_nodot (d : string) :
  strings.HasSuffix d "." = false -> removeDOT d = d.
Proof. unfold removeDOT; now intros ->. Qed.

Example removeDOT_terminated :
  removeDOT "_acme-challenge.example.com." = "_acme-challenge.example.com".
Proof. reflexivity. Qed.

Example removeDOT_unterminated :
  removeDOT "_acme-challenge.example.com" = "_acme-challenge.example.com".
Proof. reflexivity. Qed.

Example removeDOT_root : removeDOT "." = "".
Proof. reflexivity. Qed.

Lemma removeDOT_fixpoint (d : string) :
  removeDOT d = d <-> strings.HasSuffix d "." = false.
Proof.
  split; [|apply removeDOT_nodot].
  intros Hfix. destruct (strings.HasSuffix d ".") eqn:E; [|reflexivity].
  apply HasSuffix_spec in E as [p ->]. rewrite removeDOT_dot in Hfix.
  apply (f_equal String.length) in Hfix. rewrite length_append in Hfix.
  simpl in Hfix. lia.
Qed.

Lemma HasSuffix_dot_dot (p : string) :
  strings.HasSuffix (p +:+ ".") ".." = strings.HasSuffix p ".".
Proof.
  apply eq_true_iff_eq. rewrite !HasSuffix_spec. split.
  - intros [q Hq]. exists q. apply (append_inj_r _ _ ".").
    now rewrite Hq, append_assoc.
  - intros [q ->]. exists q. now rewrite append_assoc.
Qed.

(** ** C3: domain normalisation *)

(** C3, as the code has it.  A name written with the trailing root-zone dot
    loses exactly that dot: [removeDOT (d ++ ".") = d] for every [d].
    [removeDOT] applied twice gives what it gives applied once exactly on
    the names that do not end in two dots. *)
Theorem removeDOT_strips_one_dot (d : string) :
  removeDOT (d +:+ ".") = d
  /\ (removeDOT (removeDOT d) = removeDOT d
      <-> strings.HasSuffix d ".." = false).
Proof.
  split; [apply removeDOT_dot|].
  destruct (strings.HasSuffix d ".") eqn:E.
  - apply HasSuffix_spec in E as [p ->].
    rewrite removeDOT_dot, HasSuffix_dot_dot. apply removeDOT_fixpoint.
  - rewrite !(removeDOT_nodot d E). split; [intros _|reflexivity].
    destruct (strings.HasSuffix d "..") eqn:E2; [|reflexivity].
    apply HasSuffix_spec in E2 as [q ->].
    assert (strings.HasSuffix (q +:+ "..") "." = true) as E3.
    { apply HasSuffix_spec. exists (q +:+ "."). now rewrite append_assoc. }
    congruence.
Qed.

(** C3, as the specification words it, fails: [removeDOT] is not idempotent.
    A name ending in two dots loses one dot at each application. *)
Lemma removeDOT_not_idempotent :
  removeDOT "example.com.." = "example.com."
  /\ removeDOT (removeDOT "example.com..") = "example.com"
  /\ ~ (forall d, removeDOT (removeDOT d) = removeDOT d).
Proof.
  split; [reflexivity|]. split; [reflexivity|].
  intros H. specialize (H "example.com.."). vm_compute in H. discriminate H.
Qed.

(** [Quote] at work: plain text is copied; the double quote and the
    backslash are escaped; a valid printable rune is copied, a byte that is
    no UTF-8 is written in hexadecimal; the tables decide above Latin-1. *)
Example Quote_uri (tbl : Z -> bool) :
  strconv.Quote tbl "?token=a b&domain=x.org"
  = demo.dq +:+ "?token=a b&domain=x.org" +:+ demo.dq.
Proof. reflexivity. Qed.

Example Quote_escapes (tbl : Z -> bool) :
  strconv.Quote tbl
    (String "a" (String "034" (String "092" (String "010" (String "127" "")))))
  = demo.dq +:+ "a\" +:+ demo.dq +:+ "\\\n\x7f" +:+ demo.dq.
Proof. reflexivity. Qed.

Example Quote_latin1 (tbl : Z -> bool) :
  strconv.Quote tbl (String "195" (String "169" (String "255" "")))
  = demo.dq +:+ String "195" (String "169" "\xff") +:+ demo.dq.
Proof. reflexivity. Qed.

Example Quote_euro (tbl : Z -> bool) :
  strconv.Quote tbl (String "226" (String "130" (String "172" "")))
  = if tbl 0x20AC%Z
    then demo.dq +:+ String "226" (String "130" (String "172" "")) +:+ demo.dq
    else demo.dq +:+ "\u20ac" +:+ demo.dq.
Proof. destruct (tbl 8364%Z) eqn:E; vm_compute; now rewrite E. Qed.

(** ** Occurrence of one string in another *)

Lemma Contains_refl (s : string) : Contains s s.
Proof. exists "", "". now rewrite append_nil_r. Qed.

Lemma Contains_append_l (p s a : string) :
  Contains s a -> Contains (p +:+ s) a.
Proof.
  intros (pre & post & ->). exists (p +:+ pre), post. now rewrite append_assoc.
Qed.

Lemma Contains_append_r (s q a : string) :
  Contains s a -> Contains (s +:+ q) a.
Proof.
  intros (pre & post & ->). exists pre, (post +:+ q).
  now rewrite !append_assoc.
Qed.

Lemma Contains_cons (c : ascii) (s a : string) :
  Contains s a -> Contains (String c s) a.
Proof. apply (Contains_append_l (String c "")). Qed.

Lemma Contains_head (a q : string) : Contains (a +:+ q) a.
Proof. apply Contains_append_r, Contains_refl. Qed.

Lemma Contains_trans (s t a : string) :
  Contains s t -> Contains t a -> Contains s a.
Proof.
  intros (pre & post & ->) H.
  now apply Contains_append_l, Contains_append_r.
Qed.

Create HintDb contains.
#[local] Hint Resolve Contains_refl Contains_append_l Contains_append_r
  Contains_cons Contains_head : contains.

(** ** Running the solver *)

Section SolverFacts.

Context {S : Type} (env : Env S).

(** Credential resolution reads the secret store only. *)
Lemma getAPIKey_world (c : dodeDNSProviderSolver) (cfg : dodeDNSProviderConfig)
    (ns : string) (w : World S) :
  snd (getAPIKey env c cfg ns w) = w.
Proof.
  unfold getAPIKey. destruct (client c) as [cl|]; [|reflexivity].
  destruct (Secrets_Get cl ns _) as [sec|err]; [|reflexivity].
  now destruct (Data sec !! _).
Qed.

Lemma getAPIKey_run (c : dodeDNSProviderSolver) (cfg : dodeDNSProviderConfig)
    (ns : string) (w : World S) (o : outcome (string * error)) :
  fst (getAPIKey env c cfg ns w) = o -> getAPIKey env c cfg ns w = (o, w).
Proof.
  intros <-. rewrite <- (getAPIKey_world c cfg ns w) at 3.
  apply surjective_pairing.
Qed.

(** [makeRequest] returns, after one call of [client.Get]. *)
Lemma makeRequest_run (method uri : string) (w : World S) :
  makeRequest env method uri w =
  (Returns
     match fst (http_Get env (DodeAPIURL +:+ uri) (remote w)) with
     | fail err =>
       (false, Some ("Error querying DODE API for " +:+ method +:+ " "
                     +:+ fmt_q env (DodeAPIURL +:+ uri) +:+ " -> " +:+ err))
     | ok resp =>
       match json_Decode env (Body resp) zeroAPIResponse with
       | (_, Some err) => (false, Some err)
       | (r, None) =>
         if Success r then (true, None)
         else (false, Some ("DODE API error for " +:+ method +:+ " "
                            +:+ fmt_q env uri +:+ " " +:+ Error r))
       end
     end,
   {| remote := snd (http_Get env (DodeAPIURL +:+ uri) (remote w));
      requests := requests w ++ [DodeAPIURL +:+ uri] |}).
Proof.
  unfold makeRequest, bind, client_Get, ret.
  destruct (http_Get env (DodeAPIURL +:+ uri) (remote w)) as [[resp|err] s'];
    simpl; [|reflexivity].
  destruct (json_Decode env (Body resp) zeroAPIResponse) as [r [err|]];
    [reflexivity|].
  now destruct (Success r).
Qed.

(** Once the configuration and the credential are resolved, an operation is
    its request. *)
Lemma Present_resolved (c : dodeDNSProviderSolver) (ch : ChallengeRequest)
    (w : World S) (cfg : dodeDNSProviderConfig) (apiKey : string) :
  loadConfig env (Config ch) = (cfg, None) ->
  fst (getAPIKey env c cfg (ResourceNamespace ch) w) = Returns (apiKey, None) ->
  Present env c ch w =
  (Returns (snd match fst (makeRequest env "GET"
                         (presentURI apiKey (ResolvedFQDN ch) (ChKey ch)) w) with
                | Returns r => r
                | Panics _ => (false, None)
                end),
   snd (makeRequest env "GET" (presentURI apiKey (ResolvedFQDN ch) (ChKey ch)) w)).
Proof.
  intros Hcfg Hkey. apply getAPIKey_run in Hkey.
  unfold Present, bind. rewrite Hcfg, Hkey, makeRequest_run. simpl.
  destruct (fst (http_Get env _ (remote w))) as [resp|err]; [|reflexivity].
  destruct (json_Decode env (Body resp) zeroAPIResponse) as [r [err|]];
    [reflexivity|].
  now destruct (Success r).
Qed.

Lemma CleanUp_resolved (c : dodeDNSProviderSolver) (ch : ChallengeRequest)
    (w : World S) (cfg : dodeDNSProviderConfig) (apiKey : string) :
  loadConfig env (Config ch) = (cfg, None) ->
  fst (getAPIKey env c cfg (ResourceNamespace ch) w) = Returns (apiKey, None) ->
  CleanUp env c ch w =
  (Returns (snd match fst (makeRequest env "GET"
                         (cleanUpURI apiKey (ResolvedFQDN ch)) w) with
                | Returns r => r
                | Panics _ => (false, None)
                end),
   snd (makeRequest env "GET" (cleanUpURI apiKey (ResolvedFQDN ch)) w)).
Proof.
  intros Hcfg Hkey. apply getAPIKey_run in Hkey.
  unfold CleanUp, bind. rewrite Hcfg, Hkey, makeRequest_run. simpl.
  destruct (fst (http_Get env _ (remote w))) as [resp|err]; [|reflexivity].
  destruct (json_Decode env (Body resp) zeroAPIResponse) as [r [err|]];
    [reflexivity|].
  now destruct (Success r).
Qed.

End SolverFacts.

(** ** The solver at work *)

Example Present_accepted :
  Present (demo.env demo.accepts) demo.solver demo.challenge demo.world0
  = (Returns None,
     {| remote := ["https://www.do.de/api/letsencrypt?token=s3cr3t&domain=_acme-challenge.example.com&value=txt-value-123"];
        requests := ["https://www.do.de/api/letsencrypt?token=s3cr3t&domain=_acme-challenge.example.com&value=txt-value-123"] |}).
Proof. reflexivity. Qed.

Example CleanUp_unreachable :
  fst (CleanUp (demo.env demo.unreachable) demo.solver demo.challenge
         demo.world0)
  = Returns (Some ("Error querying DODE API for GET " +:+ demo.dq
                   +:+ "https://www.do.de/api/letsencrypt?token=s3cr3t&domain=_acme-challenge.example.com&action=delete"
                   +:+ demo.dq +:+ " -> dial tcp: connection refused")).
Proof. reflexivity. Qed.

Example Present_uninitialised :
  Present (demo.env demo.accepts) {| client := None |} demo.challenge
    demo.world0
  = (Panics "runtime error: invalid memory address or nil pointer dereference",
     demo.world0).
Proof. reflexivity. Qed.

Example Present_secret_missing :
  Present (demo.env demo.accepts) demo.solver
    {| ResolvedFQDN := "_acme-challenge.example.com.";
       ChKey := "txt-value-123";
       ResourceNamespace := "default";
       Config := Some {| Raw := demo.config_raw |} |} demo.world0
  = (Returns (Some ("unable to get secret `dode-credentials`; secrets "
                    +:+ demo.dq +:+ "dode-credentials" +:+ demo.dq
                    +:+ " not found")),
     demo.world0).
Proof. reflexivity. Qed.

(** ** What [%q] keeps readable *)

Lemma quoteLoop_plain_byte (tbl : Z -> bool) (c : ascii) (rest : string) :
  strconv.plainByte c = true ->
  strconv.quoteLoop tbl 0 (String c rest)
  = String c (strconv.quoteLoop tbl 0 rest).
Proof.
  intros H.
  destruct c as [[] [] [] [] [] [] [] []];
    first [ discriminate H | reflexivity ].
Qed.

Lemma quoteLoop_plain (tbl : Z -> bool) (a rest : string) :
  strconv.plain a = true ->
  strconv.quoteLoop tbl 0 (a +:+ rest) = a +:+ strconv.quoteLoop tbl 0 rest.
Proof.
  induction a as [|c a IH]; [reflexivity|].
  intros H. simpl in H. apply andb_true_iff in H as [Hc Ha].
  now rewrite !append_cons, quoteLoop_plain_byte, IH.
Qed.

(** A quoted string shows, as they are, the plain bytes it starts with. *)
Lemma Quote_plain_prefix (tbl : Z -> bool) (p a rest : string) :
  strconv.plain p = true -> strconv.plain a = true ->
  Contains (strconv.Quote tbl (p +:+ a +:+ rest)) a.
Proof.
  intros Hp Ha. unfold strconv.Quote.
  rewrite quoteLoop_plain, quoteLoop_plain by assumption.
  apply Contains_cons. rewrite !append_assoc.
  apply Contains_append_l, Contains_head.
Qed.

Lemma Quote_plain (tbl : Z -> bool) (a : string) :
  strconv.plain a = true ->
  strconv.Quote tbl a = String strconv.dquote (a +:+ String strconv.dquote "").
Proof.
  intros Ha. unfold strconv.Quote.
  rewrite <- (append_nil_r a) at 1. rewrite quoteLoop_plain by assumption.
  simpl. now rewrite append_nil_r.
Qed.

(** ** C5: decoding the configuration *)

(** C5.  With no configuration payload (a nil [Config]) [loadConfig] returns
    the zero-value configuration and a nil error.  With a payload that
    [json.Unmarshal] rejects, as it does every malformed document,
    [loadConfig] returns the error, its text prefixed with
    "error decoding solver config: ". *)
Theorem loadConfig_absent_or_malformed {S : Type} (env : Env S) :
  loadConfig env None = (zeroConfig, None)
  /\ forall raw cfg' err,
       json_Unmarshal env raw zeroConfig = (cfg', Some err) ->
       loadConfig env (Some {| Raw := raw |})
       = (cfg', Some ("error decoding solver config: " +:+ err)).
Proof.
  split; [reflexivity|].
  intros raw cfg' err H. unfold loadConfig. simpl. now rewrite H.
Qed.

Lemma loadConfig_absent_or_malformed_witness :
  loadConfig (demo.env demo.accepts) None = (zeroConfig, None)
  /\ loadConfig (demo.env demo.accepts) (Some {| Raw := "{" |})
     = (zeroConfig,
        Some "error decoding solver config: unexpected end of JSON input").
Proof.
  destruct (loadConfig_absent_or_malformed (demo.env demo.accepts)) as [H0 H1].
  split; [exact H0|].
  apply (H1 "{" zeroConfig "unexpected end of JSON input"). reflexivity.
Defined.

(** ** C4: resolving the credential *)

(** C4.  With an initialised client: when the secret store answers the
    lookup of the named secret with an error (the record is not there),
    [getAPIKey] fails with "unable to get secret `<name>`; <error>"; when
    the record is there and its [Data] has no entry for the key, it fails
    with another error, "key <quoted key> not found in secret ...", which
    names the secret and the key and is never equal to an error of the
    first kind; otherwise it returns the entry's bytes as a string, with a
    nil error. *)
Theorem getAPIKey_resolution {S : Type} (env : Env S) (cl : Clientset)
    (cfg : dodeDNSProviderConfig) (ns : string) (w : World S) :
  let name := Name (APITokenSecretRef cfg) in
  let key := Key (APITokenSecretRef cfg) in
  let c := {| client := Some cl |} in
  (forall err, Secrets_Get cl ns name = fail err ->
     exists msg,
       getAPIKey env c cfg ns w = (Returns ("", Some msg), w)
       /\ msg = "unable to get secret `" +:+ name +:+ "`; " +:+ err
       /\ Contains msg name)
  /\ (forall sec, Secrets_Get cl ns name = ok sec -> Data sec !! key = None ->
     exists msg,
       getAPIKey env c cfg ns w = (Returns ("", Some msg), w)
       /\ msg = "key " +:+ fmt_q env key +:+ " not found in secret "
                +:+ String strconv.dquote
                      (name +:+ "/" +:+ ns +:+ String strconv.dquote "")
       /\ Contains msg name
       /\ Contains msg (fmt_q env key)
       /\ (strconv.plain key = true -> Contains msg key)
       /\ forall name' err',
            msg <> "unable to get secret `" +:+ name' +:+ "`; " +:+ err')
  /\ (forall sec secBytes,
        Secrets_Get cl ns name = ok sec -> Data sec !! key = Some secBytes ->
        getAPIKey env c cfg ns w = (Returns (secBytes, None), w)).
Proof.
  intros name key c. unfold getAPIKey. simpl. fold name. fold key.
  split; [|split].
  - intros err ->. eexists. split; [reflexivity|]. split; [reflexivity|].
    auto 6 with contains.
  - intros sec -> ->. eexists. split; [reflexivity|]. split; [reflexivity|].
    split; [|split; [|split]].
    + do 3 apply Contains_append_l. apply Contains_cons, Contains_head.
    + apply Contains_append_l, Contains_head.
    + intros Hplain. apply Contains_append_l, Contains_append_r.
      unfold fmt_q. rewrite Quote_plain by assumption.
      apply Contains_cons, Contains_head.
    + intros name' err' H. discriminate H.
  - intros sec secBytes -> ->. reflexivity.
Qed.

Lemma getAPIKey_resolution_witness :
  (exists msg,
     getAPIKey (demo.env demo.accepts) demo.solver
       {| APITokenSecretRef := {| Name := "absent"; Key := "api-token" |} |}
       "cert-manager" demo.world0
     = (Returns ("", Some msg), demo.world0)
     /\ Contains msg "absent")
  /\ (exists msg,
     getAPIKey (demo.env demo.accepts) demo.solver
       {| APITokenSecretRef := {| Name := "dode-credentials"; Key := "nope" |} |}
       "cert-manager" demo.world0
     = (Returns ("", Some msg), demo.world0)
     /\ Contains msg "dode-credentials" /\ Contains msg "nope")
  /\ getAPIKey (demo.env demo.accepts) demo.solver
       {| APITokenSecretRef :=
            {| Name := "dode-credentials"; Key := "api-token" |} |}
       "cert-manager" demo.world0
     = (Returns ("s3cr3t", None), demo.world0).
Proof.
  split; [|split].
  - destruct (getAPIKey_resolution (demo.env demo.accepts) demo.clientset
                {| APITokenSecretRef := {| Name := "absent"; Key := "api-token" |} |}
                "cert-manager" demo.world0) as (H & _ & _).
    destruct (H _ eq_refl) as (msg & Hrun & _ & Hname).
    exists msg. split; [exact Hrun | exact Hname].
  - destruct (getAPIKey_resolution (demo.env demo.accepts) demo.clientset
                {| APITokenSecretRef :=
                     {| Name := "dode-credentials"; Key := "nope" |} |}
                "cert-manager" demo.world0) as (_ & H & _).
    destruct (H _ eq_refl eq_refl) as (msg & Hrun & _ & Hname & _ & Hkey & _).
    exists msg. split; [exact Hrun|]. split; [exact Hname|].
    apply Hkey. reflexivity.
  - destruct (getAPIKey_resolution (demo.env demo.accepts) demo.clientset
                {| APITokenSecretRef :=
                     {| Name := "dode-credentials"; Key := "api-token" |} |}
                "cert-manager" demo.world0) as (_ & _ & H).
    apply (H _ "s3cr3t" eq_refl). reflexivity.
Defined.

(** ** C8: errors before the request *)

(** C8.  When decoding the configuration fails, or the configuration
    decodes and resolving the credential fails, [Present] and [CleanUp]
    return that error and leave the world as it was: no request is issued
    and the remote state is untouched. *)
Theorem pre_request_error_sends_nothing {S : Type} (env : Env S)
    (c : dodeDNSProviderSolver) (ch : ChallengeRequest) (w : World S)
    (err : string) :
  (snd (loadConfig env (Config ch)) = Some err
   \/ exists cfg v,
        loadConfig env (Config ch) = (cfg, None)
        /\ fst (getAPIKey env c cfg (ResourceNamespace ch) w)
           = Returns (v, Some err)) ->
  Present env c ch w = (Returns (Some err), w)
  /\ CleanUp env c ch w = (Returns (Some err), w).
Proof.
  intros [Hcfg | (cfg & v & Hcfg & Hkey)].
  - unfold Present, CleanUp.
    destruct (loadConfig env (Config ch)) as [cfg [e|]]; simpl in Hcfg;
      [|discriminate Hcfg].
    injection Hcfg as ->. split; reflexivity.
  - apply getAPIKey_run in Hkey.
    unfold Present, CleanUp, bind. rewrite Hcfg, Hkey. split; reflexivity.
Qed.

Lemma pre_request_error_sends_nothing_witness :
  let bad := {| ResolvedFQDN := "_acme-challenge.example.com.";
                ChKey := "txt-value-123";
                ResourceNamespace := "cert-manager";
                Config := Some {| Raw := "{" |} |} in
  let lost := {| ResolvedFQDN := "_acme-challenge.example.com.";
                 ChKey := "txt-value-123";
                 ResourceNamespace := "default";
                 Config := Some {| Raw := demo.config_raw |} |} in
  (Present (demo.env demo.accepts) demo.solver bad demo.world0
   = (Returns (Some "error decoding solver config: unexpected end of JSON input"),
      demo.world0)
   /\ CleanUp (demo.env demo.accepts) demo.solver bad demo.world0
      = (Returns (Some "error decoding solver config: unexpected end of JSON input"),
         demo.world0))
  /\ exists err,
       Present (demo.env demo.accepts) demo.solver lost demo.world0
       = (Returns (Some err), demo.world0)
       /\ CleanUp (demo.env demo.accepts) demo.solver lost demo.world0
          = (Returns (Some err), demo.world0).
Proof.
  intros bad lost. split.
  - apply pre_request_error_sends_nothing. left. reflexivity.
  - eexists. apply pre_request_error_sends_nothing. right.
    eexists _, _. split; reflexivity.
Defined.

(** ** C2: the request issued *)

(** C2.  With the configuration decoded and the credential resolved,
    [Present] hands [client.Get] exactly one URL, the fixed endpoint followed
    by [?token=<credential>&domain=<normalised fqdn>&value=<txt value>], and
    [CleanUp] exactly one URL, the endpoint followed by
    [?token=<credential>&domain=<normalised fqdn>&action=delete]; the URL of
    [CleanUp] is the same whatever the TXT value of the challenge. *)
Theorem request_issued {S : Type} (env : Env S) (c : dodeDNSProviderSolver)
    (ch : ChallengeRequest) (w : World S) (cfg : dodeDNSProviderConfig)
    (apiKey : string) :
  loadConfig env (Config ch) = (cfg, None) ->
  fst (getAPIKey env c cfg (ResourceNamespace ch) w) = Returns (apiKey, None) ->
  requests (snd (Present env c ch w))
  = requests w ++ ["https://www.do.de/api/letsencrypt"
                   +:+ "?token=" +:+ apiKey
                   +:+ "&domain=" +:+ removeDOT (ResolvedFQDN ch)
                   +:+ "&value=" +:+ ChKey ch]
  /\ requests (snd (CleanUp env c ch w))
     = requests w ++ ["https://www.do.de/api/letsencrypt"
                      +:+ "?token=" +:+ apiKey
                      +:+ "&domain=" +:+ removeDOT (ResolvedFQDN ch)
                      +:+ "&action=delete"]
  /\ forall value,
       requests (snd (CleanUp env c
                        {| ResolvedFQDN := ResolvedFQDN ch;
                           ChKey := value;
                           ResourceNamespace := ResourceNamespace ch;
                           Config := Config ch |} w))
       = requests (snd (CleanUp env c ch w)).
Proof.
  intros Hcfg Hkey.
  rewrite (Present_resolved env c ch w cfg apiKey Hcfg Hkey).
  rewrite (CleanUp_resolved env c ch w cfg apiKey Hcfg Hkey).
  rewrite !makeRequest_run. simpl.
  split; [reflexivity|]. split; [reflexivity|].
  intros value.
  rewrite (CleanUp_resolved env c
             {| ResolvedFQDN := ResolvedFQDN ch; ChKey := value;
                ResourceNamespace := ResourceNamespace ch;
                Config := Config ch |} w cfg apiKey Hcfg Hkey).
  rewrite makeRequest_run. reflexivity.
Qed.

Lemma request_issued_witness :
  requests (snd (Present (demo.env demo.accepts) demo.solver demo.challenge
                   demo.world0))
  = ["https://www.do.de/api/letsencrypt?token=s3cr3t&domain=_acme-challenge.example.com&value=txt-value-123"]
  /\ requests (snd (CleanUp (demo.env demo.accepts) demo.solver demo.challenge
                      demo.world0))
     = ["https://www.do.de/api/letsencrypt?token=s3cr3t&domain=_acme-challenge.example.com&action=delete"].
Proof.
  destruct (request_issued (demo.env demo.accepts) demo.solver demo.challenge
              demo.world0
              {| APITokenSecretRef :=
                   {| Name := "dode-credentials"; Key := "api-token" |} |}
              "s3cr3t" eq_refl eq_refl) as (Hp & Hc & _).
  split; [exact Hp | exact Hc].
Defined.

(** ** C1: interpreting the provider's answer *)

Lemma makeRequest_interpretation {S : Type} (env : Env S) (uri : string)
    (w : World S) (res : outcome error) :
  res = Returns (snd match fst (makeRequest env "GET" uri w) with
                     | Returns r => r
                     | Panics _ => (false, None)
                     end) ->
  response_rule env uri w res
  /\ (res = Returns None <-> answers_success env uri w).
Proof.
  intros ->. rewrite makeRequest_run. unfold response_rule, answers_success.
  simpl.
  destruct (http_Get env (DodeAPIURL +:+ uri) (remote w)) as [[resp|err] s'];
    simpl.
  - destruct (json_Decode env (Body resp) zeroAPIResponse) as [r [err|]] eqn:D.
    + split; [reflexivity|]. split; [discriminate|].
      intros (resp' & s'' & r' & [= <- <-] & D' & _). congruence.
    + destruct (Success r) eqn:Hs; simpl.
      * split; [reflexivity|]. split; [|reflexivity].
        intros _. now exists resp, s', r.
      * split; [eexists; split; [reflexivity|]; auto 8 with contains|].
        split; [discriminate|].
        intros (resp' & s'' & r' & [= <- <-] & D' & Hs'). congruence.
  - split; [eexists; split; [reflexivity|]; auto 8 with contains|].
    split; [discriminate|].
    intros (resp' & s'' & r' & [=] & _).
Qed.

(** C1.  With the configuration decoded and the credential resolved, the
    answer to the request decides the result of [Present] and of [CleanUp]:
    a transport failure is an error whose text includes the transport's
    error text; a body that does not decode is the decoder's error; a body
    that decodes with [success=false] is an error whose text includes the
    provider's [error] text; a body that decodes with [success=true] is
    success.  The result is success (a nil error) if and only if the answer
    is a body that decodes with [success=true]. *)
Theorem response_interpretation {S : Type} (env : Env S)
    (c : dodeDNSProviderSolver) (ch : ChallengeRequest) (w : World S)
    (cfg : dodeDNSProviderConfig) (apiKey : string) :
  loadConfig env (Config ch) = (cfg, None) ->
  fst (getAPIKey env c cfg (ResourceNamespace ch) w) = Returns (apiKey, None) ->
  let p := presentURI apiKey (ResolvedFQDN ch) (ChKey ch) in
  let d := cleanUpURI apiKey (ResolvedFQDN ch) in
  response_rule env p w (fst (Present env c ch w))
  /\ response_rule env d w (fst (CleanUp env c ch w))
  /\ (fst (Present env c ch w) = Returns None <-> answers_success env p w)
  /\ (fst (CleanUp env c ch w) = Returns None <-> answers_success env d w).
Proof.
  intros Hcfg Hkey p d.
  destruct (makeRequest_interpretation env p w (fst (Present env c ch w)))
    as [Hp1 Hp2].
  { now rewrite (Present_resolved env c ch w cfg apiKey Hcfg Hkey). }
  destruct (makeRequest_interpretation env d w (fst (CleanUp env c ch w)))
    as [Hd1 Hd2].
  { now rewrite (CleanUp_resolved env c ch w cfg apiKey Hcfg Hkey). }
  auto.
Qed.

Lemma response_interpretation_witness :
  fst (Present (demo.env demo.accepts) demo.solver demo.challenge demo.world0)
  = Returns None
  /\ (exists msg,
        fst (Present (demo.env demo.rejects) demo.solver demo.challenge
               demo.world0) = Returns (Some msg)
        /\ Contains msg "rate limited")
  /\ (exists msg,
        fst (CleanUp (demo.env demo.unreachable) demo.solver demo.challenge
               demo.world0) = Returns (Some msg)
        /\ Contains msg "dial tcp: connection refused")
  /\ fst (CleanUp (demo.env demo.garbles) demo.solver demo.challenge
            demo.world0)
     = Returns (Some "invalid character '<' looking for beginning of value").
Proof.
  pose (cfg := {| APITokenSecretRef :=
                    {| Name := "dode-credentials"; Key := "api-token" |} |}).
  split; [|split; [|split]].
  - exact (proj1 (response_interpretation (demo.env demo.accepts)
             demo.solver demo.challenge demo.world0 cfg "s3cr3t"
             eq_refl eq_refl)).
  - exact (proj1 (response_interpretation (demo.env demo.rejects)
             demo.solver demo.challenge demo.world0 cfg "s3cr3t"
             eq_refl eq_refl)).
  - exact (proj1 (proj2 (response_interpretation (demo.env demo.unreachable)
             demo.solver demo.challenge demo.world0 cfg "s3cr3t"
             eq_refl eq_refl))).
  - exact (proj1 (proj2 (response_interpretation (demo.env demo.garbles)
             demo.solver demo.challenge demo.world0 cfg "s3cr3t"
             eq_refl eq_refl))).
Defined.

(** ** C9: the status code *)

Lemma makeRequest_with_status {S : Type} (env : Env S) (f : Z -> Z)
    (method uri : string) (w : World S) :
  makeRequest (with_status f env) method uri w = makeRequest env method uri w.
Proof.
  rewrite !makeRequest_run. unfold with_status, fmt_q. simpl.
  now destruct (http_Get env (DodeAPIURL +:+ uri) (remote w)) as [[resp|err] s'].
Qed.

(** C9.  The status code of the provider's response plays no part.  A
    response of any status code whose body decodes with [success=true]
    makes [makeRequest] return [(true, nil)]; and [Present] and [CleanUp]
    do the same, result and world, when the provider sends the same bodies
    under other status codes. *)
Theorem status_code_ignored {S : Type} (env : Env S) :
  (forall method uri w code body s' r,
     http_Get env (DodeAPIURL +:+ uri) (remote w)
     = (ok {| StatusCode := code; Body := body |}, s') ->
     json_Decode env body zeroAPIResponse = (r, None) ->
     Success r = true ->
     fst (makeRequest env method uri w) = Returns (true, None))
  /\ (forall f c ch w,
        Present (with_status f env) c ch w = Present env c ch w
        /\ CleanUp (with_status f env) c ch w = CleanUp env c ch w).
Proof.
  split.
  - intros method uri w code body s' r Hget Hdec Hs.
    rewrite makeRequest_run, Hget. simpl. now rewrite Hdec, Hs.
  - intros f c ch w. unfold Present, CleanUp, bind.
    change (loadConfig (with_status f env)) with (loadConfig env).
    destruct (loadConfig env (Config ch)) as [cfg [e|]]; [now split|].
    change (getAPIKey (with_status f env)) with (getAPIKey env).
    destruct (getAPIKey env c cfg (ResourceNamespace ch) w)
      as [[[apiKey [e|]]|msg] w1]; try now split.
    now rewrite !makeRequest_with_status.
Qed.

Lemma status_code_ignored_witness :
  let failing (url : string) :=
    ok {| StatusCode := 500; Body := demo.body_success |} in
  fst (makeRequest (demo.env failing) "GET"
         (presentURI "s3cr3t" "_acme-challenge.example.com." "txt-value-123")
         demo.world0)
  = Returns (true, None)
  /\ Present (with_status (fun _ => 500%Z) (demo.env demo.accepts))
       demo.solver demo.challenge demo.world0
     = Present (demo.env demo.accepts) demo.solver demo.challenge demo.world0.
Proof.
  intros failing. split.
  - apply (proj1 (status_code_ignored (demo.env failing)) "GET" _ demo.world0
             500%Z demo.body_success
             ["https://www.do.de/api/letsencrypt?token=s3cr3t&domain=_acme-challenge.example.com&value=txt-value-123"]
             {| Success := true; Error := "" |});
      reflexivity.
  - apply (proj2 (status_code_ignored (demo.env demo.accepts))).
Defined.

(** ** C10: the request URI is not encoded *)

(** C10.  The credential, the normalised domain and the TXT value are
    copied into the URL handed to [client.Get] byte for byte, whatever
    characters they hold.  Query-significant characters in them therefore
    change how the query string reads: two different challenges give one and
    the same request. *)
Theorem request_uri_not_encoded {S : Type} (env : Env S)
    (c : dodeDNSProviderSolver) (w : World S) (ns : string)
    (config : option JSON) (cfg : dodeDNSProviderConfig) (apiKey : string) :
  loadConfig env config = (cfg, None) ->
  fst (getAPIKey env c cfg ns w) = Returns (apiKey, None) ->
  let ch fqdn key :=
    {| ResolvedFQDN := fqdn; ChKey := key;
       ResourceNamespace := ns; Config := config |} in
  (forall fqdn key, exists url,
     requests (snd (Present env c (ch fqdn key) w)) = requests w ++ [url]
     /\ url = DodeAPIURL +:+ "?token=" +:+ apiKey
              +:+ "&domain=" +:+ removeDOT fqdn +:+ "&value=" +:+ key
     /\ Contains url apiKey
     /\ Contains url (removeDOT fqdn)
     /\ Contains url key)
  /\ (forall fqdn key, exists url,
        requests (snd (CleanUp env c (ch fqdn key) w)) = requests w ++ [url]
        /\ url = DodeAPIURL +:+ "?token=" +:+ apiKey
                 +:+ "&domain=" +:+ removeDOT fqdn +:+ "&action=delete"
        /\ Contains url apiKey
        /\ Contains url (removeDOT fqdn))
  /\ Present env c (ch "example.com" "x&value=y") w
     = Present env c (ch "example.com&value=x" "y") w.
Proof.
  intros Hcfg Hkey ch. split; [|split].
  - intros fqdn key. eexists.
    rewrite (Present_resolved env c (ch fqdn key) w cfg apiKey Hcfg Hkey).
    rewrite makeRequest_run. simpl.
    split; [reflexivity|]. split; [reflexivity|].
    unfold presentURI. auto 10 with contains.
  - intros fqdn key. eexists.
    rewrite (CleanUp_resolved env c (ch fqdn key) w cfg apiKey Hcfg Hkey).
    rewrite makeRequest_run. simpl.
    split; [reflexivity|]. split; [reflexivity|].
    unfold cleanUpURI. auto 10 with contains.
  - rewrite (Present_resolved env c (ch "example.com" "x&value=y") w cfg apiKey
               Hcfg Hkey).
    rewrite (Present_resolved env c (ch "example.com&value=x" "y") w cfg apiKey
               Hcfg Hkey).
    reflexivity.
Qed.

Lemma request_uri_not_encoded_witness :
  requests (snd (Present (demo.env demo.accepts) demo.solver
                   {| ResolvedFQDN := "a=b.example.com.";
                      ChKey := "x y&token=z#frag";
                      ResourceNamespace := "cert-manager";
                      Config := Some {| Raw := demo.config_raw |} |}
                   demo.world0))
  = ["https://www.do.de/api/letsencrypt?token=s3cr3t&domain=a=b.example.com&value=x y&token=z#frag"].
Proof.
  destruct (request_uri_not_encoded (demo.env demo.accepts) demo.solver
              demo.world0 "cert-manager" (Some {| Raw := demo.config_raw |})
              {| APITokenSecretRef :=
                   {| Name := "dode-credentials"; Key := "api-token" |} |}
              "s3cr3t" eq_refl eq_refl) as (H & _ & _).
  destruct (H "a=b.example.com." "x y&token=z#frag") as (url & Hreq & Hurl & _).
  rewrite Hreq, Hurl. reflexivity.
Defined.

(** ** C6: calling [Present] again *)

Lemma getAPIKey_any_world {S : Type} (env : Env S) (c : dodeDNSProviderSolver)
    (cfg : dodeDNSProviderConfig) (ns : string) (w w' : World S) :
  fst (getAPIKey env c cfg ns w') = fst (getAPIKey env c cfg ns w).
Proof.
  unfold getAPIKey. destruct (client c) as [cl|]; [|reflexivity].
  destruct (Secrets_Get cl ns _) as [sec|err]; [|reflexivity].
  now destruct (Data sec !! _).
Qed.

(** A provider that answers by a fixed function of the request, and keeps no
    state of its own, is idempotent. *)
Lemma fixed_response_idempotent {S : Type} (env : Env S)
    (answer : string -> result Response) :
  (forall url s, http_Get env url s = (answer url, s)) ->
  idempotent_provider env.
Proof. intros H url s. now rewrite !H. Qed.

Lemma demo_provider_idempotent (answer : string -> result Response) :
  idempotent_provider (demo.env answer).
Proof.
  intros url zone. simpl. unfold demo.provider. simpl. f_equal.
  destruct (existsb (String.eqb url) zone) eqn:E.
  - now rewrite E.
  - rewrite existsb_app. simpl. now rewrite String.eqb_refl, orb_true_r.
Qed.

(** C6.  Over a provider that is idempotent (one that answers by a fixed
    function of the request is), a second [Present] with the same arguments
    returns what the first returned and leaves the remote state as the first
    left it; it sends again what the first sent. *)
Theorem Present_idempotent {S : Type} (env : Env S)
    (c : dodeDNSProviderSolver) (ch : ChallengeRequest) (w : World S) :
  idempotent_provider env ->
  let once := Present env c ch w in
  let twice := Present env c ch (snd once) in
  fst twice = fst once
  /\ remote (snd twice) = remote (snd once)
  /\ exists sent,
       requests (snd once) = requests w ++ sent
       /\ requests (snd twice) = requests (snd once) ++ sent.
Proof.
  intros Hidem.
  destruct (loadConfig env (Config ch)) as [cfg [e|]] eqn:Hcfg.
  { assert (forall w', Present env c ch w' = (Returns (Some e), w')) as E
      by (intros w'; unfold Present; now rewrite Hcfg).
    simpl. rewrite !E. simpl. split; [reflexivity|]. split; [reflexivity|].
    exists []. now rewrite app_nil_r. }
  destruct (fst (getAPIKey env c cfg (ResourceNamespace ch) w))
    as [[apiKey [e|]]|msg] eqn:Hkey.
  - assert (forall w', Present env c ch w' = (Returns (Some e), w')) as E.
    { intros w'. unfold Present, bind. rewrite Hcfg.
      rewrite (getAPIKey_run env c cfg _ w' (Returns (apiKey, Some e)));
        [reflexivity|].
      now rewrite (getAPIKey_any_world env c cfg _ w w'). }
    simpl. rewrite !E. simpl. split; [reflexivity|]. split; [reflexivity|].
    exists []. now rewrite app_nil_r.
  - assert (forall w',
              fst (getAPIKey env c cfg (ResourceNamespace ch) w')
              = Returns (apiKey, None)) as Hkey'
      by (intros w'; now rewrite (getAPIKey_any_world env c cfg _ w w')).
    simpl.
    rewrite !(Present_resolved env c ch _ cfg apiKey Hcfg (Hkey' _)).
    rewrite !makeRequest_run. simpl. rewrite Hidem.
    split; [reflexivity|]. split; [reflexivity|].
    now eexists.
  - assert (forall w', Present env c ch w' = (Panics msg, w')) as E.
    { intros w'. unfold Present, bind. rewrite Hcfg.
      rewrite (getAPIKey_run env c cfg _ w' (Panics msg)); [reflexivity|].
      now rewrite (getAPIKey_any_world env c cfg _ w w'). }
    simpl. rewrite !E. simpl. split; [reflexivity|]. split; [reflexivity|].
    exists []. now rewrite app_nil_r.
Qed.

Lemma Present_idempotent_witness :
  let once :=
    Present (demo.env demo.accepts) demo.solver demo.challenge demo.world0 in
  let twice :=
    Present (demo.env demo.accepts) demo.solver demo.challenge (snd once) in
  idempotent_provider (demo.env demo.accepts)
  /\ fst twice = fst once
  /\ remote (snd twice) = remote (snd once).
Proof.
  intros once twice.
  split; [apply demo_provider_idempotent|].
  destruct (Present_idempotent (demo.env demo.accepts) demo.solver
              demo.challenge demo.world0
              (demo_provider_idempotent demo.accepts)) as (H1 & H2 & _).
  split; [exact H1 | exact H2].
Defined.

(** ** C7: what the returned errors show *)

Lemma loadConfig_error_text {S : Type} (env : Env S) (cfgJSON : option JSON)
    (msg : string) :
  snd (loadConfig env cfgJSON) = Some msg ->
  exists err, msg = "error decoding solver config: " +:+ err.
Proof.
  unfold loadConfig. destruct cfgJSON as [j|]; [|discriminate].
  destruct (json_Unmarshal env (Raw j) zeroConfig) as [cfg [err|]];
    [|discriminate].
  intros [= <-]. now exists err.
Qed.

Lemma getAPIKey_error_names_secret {S : Type} (env : Env S)
    (c : dodeDNSProviderSolver) (cfg : dodeDNSProviderConfig) (ns : string)
    (w : World S) (v msg : string) :
  fst (getAPIKey env c cfg ns w) = Returns (v, Some msg) ->
  Contains msg (Name (APITokenSecretRef cfg)).
Proof.
  unfold getAPIKey. destruct (client c) as [cl|]; [|discriminate].
  destruct (Secrets_Get cl ns _) as [sec|err].
  - destruct (Data sec !! _); [discriminate|].
    intros [= _ <-]. do 3 apply Contains_append_l.
    apply Contains_cons, Contains_head.
  - intros [= _ <-]. auto 6 with contains.
Qed.

(** The errors of the request stage: the decoder's own, or one that quotes
    the URI or the URL and, with it, a plain credential. *)
Lemma makeRequest_error_text {S : Type} (env : Env S) (apiKey rest : string)
    (w : World S) (msg : string) :
  let uri := "?token=" +:+ apiKey +:+ rest in
  snd match fst (makeRequest env "GET" uri w) with
      | Returns r => r
      | Panics _ => (false, None)
      end = Some msg ->
  (exists resp,
     fst (http_Get env (DodeAPIURL +:+ uri) (remote w)) = ok resp
     /\ snd (json_Decode env (Body resp) zeroAPIResponse) = Some msg)
  \/ ((Contains msg (fmt_q env uri)
       \/ Contains msg (fmt_q env (DodeAPIURL +:+ uri)))
      /\ (strconv.plain apiKey = true -> Contains msg apiKey)).
Proof.
  intros uri. rewrite makeRequest_run. simpl.
  destruct (fst (http_Get env (DodeAPIURL +:+ uri) (remote w))) as [resp|err].
  - destruct (json_Decode env (Body resp) zeroAPIResponse) as [r [err|]] eqn:D.
    + intros [= <-]. left. exists resp. now rewrite D.
    + destruct (Success r); [discriminate|]. intros [= <-]. right. split.
      * left. do 3 apply Contains_append_l. apply Contains_head.
      * intros Hplain. do 3 apply Contains_append_l. apply Contains_append_r.
        now apply (Quote_plain_prefix _ "?token=").
  - intros [= <-]. right. split.
    + right. do 3 apply Contains_append_l. apply Contains_head.
    + intros Hplain. do 3 apply Contains_append_l. apply Contains_append_r.
      unfold fmt_q, uri. rewrite <- (append_assoc DodeAPIURL "?token=").
      now apply Quote_plain_prefix.
Qed.

(** C7, as the code has it.  An error returned by [Present] or [CleanUp] is
    of one of three kinds.  (1) The configuration did not decode: the text
    is "error decoding solver config: " and the decoder's error.  (2) The
    credential was not resolved: the text names the secret.  (3) The request
    was made: the text is either the error of decoding the response body,
    passed on as it is, or a text that quotes the request URI or URL; the
    URI holds the resolved credential, so a credential made of printable
    ASCII other than the double quote and the backslash stands in that
    text as it is. *)
Theorem returned_error_text {S : Type} (env : Env S)
    (c : dodeDNSProviderSolver) (ch : ChallengeRequest) (w : World S)
    (msg : string) :
  (fst (Present env c ch w) = Returns (Some msg)
   \/ fst (CleanUp env c ch w) = Returns (Some msg)) ->
  (exists err,
     snd (loadConfig env (Config ch)) = Some msg
     /\ msg = "error decoding solver config: " +:+ err)
  \/ (exists cfg v,
        loadConfig env (Config ch) = (cfg, None)
        /\ fst (getAPIKey env c cfg (ResourceNamespace ch) w)
           = Returns (v, Some msg)
        /\ Contains msg (Name (APITokenSecretRef cfg)))
  \/ (exists cfg apiKey uri,
        loadConfig env (Config ch) = (cfg, None)
        /\ fst (getAPIKey env c cfg (ResourceNamespace ch) w)
           = Returns (apiKey, None)
        /\ (uri = presentURI apiKey (ResolvedFQDN ch) (ChKey ch)
            \/ uri = cleanUpURI apiKey (ResolvedFQDN ch))
        /\ ((exists resp,
               fst (http_Get env (DodeAPIURL +:+ uri) (remote w)) = ok resp
               /\ snd (json_Decode env (Body resp) zeroAPIResponse) = Some msg)
            \/ ((Contains msg (fmt_q env uri)
                 \/ Contains msg (fmt_q env (DodeAPIURL +:+ uri)))
                /\ (strconv.plain apiKey = true
                    -> Contains msg apiKey)))).
Proof.
  intros H.
  destruct (loadConfig env (Config ch)) as [cfg [e|]] eqn:Hcfg.
  { left.
    assert (e = msg) as ->.
    { unfold Present, CleanUp in H. rewrite Hcfg in H. simpl in H.
      destruct H as [[= ->] | [= ->]]; reflexivity. }
    destruct (loadConfig_error_text env (Config ch) msg) as [err ->];
      [now rewrite Hcfg|].
    now exists err. }
  right.
  destruct (fst (getAPIKey env c cfg (ResourceNamespace ch) w))
    as [[apiKey [e|]]|m] eqn:Hkey.
  - left. exists cfg, apiKey.
    assert (e = msg) as ->.
    { pose proof (getAPIKey_run env c cfg _ w _ Hkey) as Hrun.
      unfold Present, CleanUp, bind in H. rewrite Hcfg, Hrun in H. simpl in H.
      destruct H as [[= ->] | [= ->]]; reflexivity. }
    split; [reflexivity|]. split; [exact Hkey|].
    exact (getAPIKey_error_names_secret env c cfg _ w apiKey msg Hkey).
  - right. exists cfg, apiKey.
    rewrite (Present_resolved env c ch w cfg apiKey Hcfg Hkey) in H.
    rewrite (CleanUp_resolved env c ch w cfg apiKey Hcfg Hkey) in H.
    simpl in H. destruct H as [[= H] | [= H]].
    + exists (presentURI apiKey (ResolvedFQDN ch) (ChKey ch)).
      split; [reflexivity|]. split; [exact Hkey|]. split; [now left|].
      now apply makeRequest_error_text.
    + exists (cleanUpURI apiKey (ResolvedFQDN ch)).
      split; [reflexivity|]. split; [exact Hkey|]. split; [now right|].
      now apply makeRequest_error_text.
  - exfalso.
    pose proof (getAPIKey_run env c cfg _ w _ Hkey) as Hrun.
    unfold Present, CleanUp, bind in H. rewrite Hcfg, Hrun in H. simpl in H.
    destruct H as [H | H]; discriminate H.
Qed.

Lemma returned_error_text_witness :
  let msg := "DODE API error for GET " +:+ demo.dq
             +:+ "?token=s3cr3t&domain=_acme-challenge.example.com&value=txt-value-123"
             +:+ demo.dq +:+ " rate limited" in
  fst (Present (demo.env demo.rejects) demo.solver demo.challenge demo.world0)
  = Returns (Some msg)
  /\ Contains msg "s3cr3t".
Proof.
  intros msg. split; [reflexivity|].
  destruct (returned_error_text (demo.env demo.rejects) demo.solver
              demo.challenge demo.world0 msg (or_introl eq_refl))
    as [(err & Hl & _)
       | [(cfg & v & Hl & Hk & _)
         | (cfg & apiKey & uri & Hl & Hk & Huri & Hreq)]].
  - discriminate Hl.
  - injection Hl as <-. discriminate Hk.
  - injection Hl as <-. injection Hk as <-.
    destruct Hreq as [(resp & Hget & Hdec) | [_ Hplain]].
    + destruct Huri as [-> | ->]; injection Hget as <-; discriminate Hdec.
    + apply Hplain. reflexivity.
Defined.

(** C7, as the specification words it, fails: the resolved credential
    stands in a returned error.  The secret holds "s3cr3t"; the provider
    rejects the request; the error returned by [Present] quotes the request
    URI, credential included. *)
Lemma returned_error_shows_credential :
  fst (getAPIKey (demo.env demo.rejects) demo.solver
         {| APITokenSecretRef :=
              {| Name := "dode-credentials"; Key := "api-token" |} |}
         "cert-manager" demo.world0)
  = Returns ("s3cr3t", None)
  /\ exists msg,
       fst (Present (demo.env demo.rejects) demo.solver demo.challenge
              demo.world0) = Returns (Some msg)
       /\ msg = "DODE API error for GET " +:+ demo.dq
                +:+ "?token=s3cr3t&domain=_acme-challenge.example.com&value=txt-value-123"
                +:+ demo.dq +:+ " rate limited"
       /\ Contains msg "s3cr3t".
Proof.
  split; [reflexivity|]. eexists. split; [reflexivity|]. split; [reflexivity|].
  exists ("DODE API error for GET " +:+ demo.dq +:+ "?token="),
         ("&domain=_acme-challenge.example.com&value=txt-value-123"
          +:+ demo.dq +:+ " rate limited").
  reflexivity.
Qed.

(** * Further properties of the solver *)

(** ** The operations, case by case *)

Lemma Present_run {S : Type} (env : Env S) (c : dodeDNSProviderSolver)
    (ch : ChallengeRequest) (w : World S) :
  Present env c ch w =
  match loadConfig env (Config ch) with
  | (_, Some err) => (Returns (Some err), w)
  | (cfg, None) =>
    match fst (getAPIKey env c cfg (ResourceNamespace ch) w) with
    | Panics msg => (Panics msg, w)
    | Returns (_, Some err) => (Returns (Some err), w)
    | Returns (apiKey, None) =>
      let uri := presentURI apiKey (ResolvedFQDN ch) (ChKey ch) in
      (Returns (snd match fst (makeRequest env "GET" uri w) with
                    | Returns r => r
                    | Panics _ => (false, None)
                    end),
       snd (makeRequest env "GET" uri w))
    end
  end.
Proof.
  destruct (loadConfig env (Config ch)) as [cfg [e|]] eqn:Hcfg.
  { unfold Present. now rewrite Hcfg. }
  destruct (fst (getAPIKey env c cfg (ResourceNamespace ch) w))
    as [[apiKey [e|]]|msg] eqn:Hkey.
  - apply getAPIKey_run in Hkey. unfold Present, bind. now rewrite Hcfg, Hkey.
  - exact (Present_resolved env c ch w cfg apiKey Hcfg Hkey).
  - apply getAPIKey_run in Hkey. unfold Present, bind. now rewrite Hcfg, Hkey.
Qed.

Lemma CleanUp_run {S : Type} (env : Env S) (c : dodeDNSProviderSolver)
    (ch : ChallengeRequest) (w : World S) :
  CleanUp env c ch w =
  match loadConfig env (Config ch) with
  | (_, Some err) => (Returns (Some err), w)
  | (cfg, None) =>
    match fst (getAPIKey env c cfg (ResourceNamespace ch) w) with
    | Panics msg => (Panics msg, w)
    | Returns (_, Some err) => (Returns (Some err), w)
    | Returns (apiKey, None) =>
      let uri := cleanUpURI apiKey (ResolvedFQDN ch) in
      (Returns (snd match fst (makeRequest env "GET" uri w) with
                    | Returns r => r
                    | Panics _ => (false, None)
                    end),
       snd (makeRequest env "GET" uri w))
    end
  end.
Proof.
  destruct (loadConfig env (Config ch)) as [cfg [e|]] eqn:Hcfg.
  { unfold CleanUp. now rewrite Hcfg. }
  destruct (fst (getAPIKey env c cfg (ResourceNamespace ch) w))
    as [[apiKey [e|]]|msg] eqn:Hkey.
  - apply getAPIKey_run in Hkey. unfold CleanUp, bind. now rewrite Hcfg, Hkey.
  - exact (CleanUp_resolved env c ch w cfg apiKey Hcfg Hkey).
  - apply getAPIKey_run in Hkey. unfold CleanUp, bind. now rewrite Hcfg, Hkey.
Qed.

(** The credential found does not depend on the world. *)
Lemma getAPIKey_resolved_anywhere {S : Type} (env : Env S)
    (c : dodeDNSProviderSolver) (cfg : dodeDNSProviderConfig) (ns : string)
    (w : World S) (o : outcome (string * error)) :
  fst (getAPIKey env c cfg ns w) = o ->
  forall w', fst (getAPIKey env c cfg ns w') = o.
Proof. intros <- w'. apply getAPIKey_any_world. Qed.

(** ** [removeDOT]: what is removed *)

(** X1.  [removeDOT] returns its argument less one trailing dot when there
    is one, and its argument otherwise: the argument is the result followed
    by the dot removed, and the result is at most one byte shorter. *)
Theorem removeDOT_removes_at_most_one_dot (d : string) :
  d = removeDOT d +:+ (if strings.HasSuffix d "." then "." else "")
  /\ (String.length d - 1 <= String.length (removeDOT d)
      <= String.length d)%nat.
Proof.
  destruct (strings.HasSuffix d ".") eqn:E.
  - apply HasSuffix_spec in E as [p ->]. rewrite removeDOT_dot.
    split; [reflexivity|]. rewrite length_append. simpl. lia.
  - rewrite (removeDOT_nodot d E), append_nil_r. split; [reflexivity|lia].
Qed.

(** X2.  A name and the same name followed by the root-zone dot are one and
    the same challenge to [Present] and to [CleanUp]: result and world
    agree. *)
Theorem fqdn_forms_agree {S : Type} (env : Env S) (c : dodeDNSProviderSolver)
    (ch : ChallengeRequest) (w : World S) :
  strings.HasSuffix (ResolvedFQDN ch) "." = false ->
  let dotted := {| ResolvedFQDN := ResolvedFQDN ch +:+ ".";
                   ChKey := ChKey ch;
                   ResourceNamespace := ResourceNamespace ch;
                   Config := Config ch |} in
  Present env c dotted w = Present env c ch w
  /\ CleanUp env c dotted w = CleanUp env c ch w.
Proof.
  intros Hnodot dotted.
  rewrite !Present_run, !CleanUp_run. unfold presentURI, cleanUpURI. simpl.
  now rewrite removeDOT_dot, (removeDOT_nodot _ Hnodot).
Qed.

Lemma fqdn_forms_agree_witness :
  Present (demo.env demo.accepts) demo.solver
    {| ResolvedFQDN := "_acme-challenge.example.com" +:+ ".";
       ChKey := "txt-value-123";
       ResourceNamespace := "cert-manager";
       Config := Some {| Raw := demo.config_raw |} |} demo.world0
  = Present (demo.env demo.accepts) demo.solver
      {| ResolvedFQDN := "_acme-challenge.example.com";
         ChKey := "txt-value-123";
         ResourceNamespace := "cert-manager";
         Config := Some {| Raw := demo.config_raw |} |} demo.world0.
Proof.
  apply (fqdn_forms_agree (demo.env demo.accepts) demo.solver
           {| ResolvedFQDN := "_acme-challenge.example.com";
              ChKey := "txt-value-123";
              ResourceNamespace := "cert-manager";
              Config := Some {| Raw := demo.config_raw |} |} demo.world0).
  reflexivity.
Defined.

(** ** The solver before and after [Initialize] *)

(** X3.  On a solver whose client is nil, an operation whose configuration
    decodes panics at the secret lookup, before any request; an operation
    whose configuration does not decode returns the decoding error, as on
    any solver.  The world is left as it was either way. *)
Theorem uninitialised_solver_panics {S : Type} (env : Env S)
    (ch : ChallengeRequest) (w : World S) :
  let c := {| client := None |} in
  (snd (loadConfig env (Config ch)) = None ->
   exists msg,
     Present env c ch w = (Panics msg, w)
     /\ CleanUp env c ch w = (Panics msg, w))
  /\ (forall err,
        snd (loadConfig env (Config ch)) = Some err ->
        Present env c ch w = (Returns (Some err), w)
        /\ CleanUp env c ch w = (Returns (Some err), w)).
Proof.
  intros c. rewrite Present_run, CleanUp_run.
  destruct (loadConfig env (Config ch)) as [cfg [e|]]; simpl.
  - split; [discriminate|]. intros err [= ->]. now split.
  - split; [|discriminate]. intros _. eexists. split; reflexivity.
Qed.

Lemma uninitialised_solver_panics_witness :
  (exists msg,
     Present (demo.env demo.accepts) {| client := None |} demo.challenge
       demo.world0
     = (Panics msg, demo.world0))
  /\ Present (demo.env demo.accepts) {| client := None |}
       {| ResolvedFQDN := "_acme-challenge.example.com.";
          ChKey := "txt-value-123";
          ResourceNamespace := "cert-manager";
          Config := Some {| Raw := "{" |} |} demo.world0
     = (Returns (Some "error decoding solver config: unexpected end of JSON input"),
        demo.world0).
Proof.
  split.
  - destruct (proj1 (uninitialised_solver_panics (demo.env demo.accepts)
                       demo.challenge demo.world0) eq_refl)
      as (msg & Hp & _).
    exists msg. exact Hp.
  - apply (proj2 (uninitialised_solver_panics (demo.env demo.accepts)
                    {| ResolvedFQDN := "_acme-challenge.example.com.";
                       ChKey := "txt-value-123";
                       ResourceNamespace := "cert-manager";
                       Config := Some {| Raw := "{" |} |} demo.world0)).
    reflexivity.
Defined.

Lemma getAPIKey_initialised {S : Type} (env : Env S) (cl : Clientset)
    (cfg : dodeDNSProviderConfig) (ns : string) (w : World S) :
  exists r, fst (getAPIKey env {| client := Some cl |} cfg ns w) = Returns r.
Proof.
  unfold getAPIKey. simpl.
  destruct (Secrets_Get cl ns _) as [sec|err]; [|now eexists].
  destruct (Data sec !! _); now eexists.
Qed.

Lemma initialised_operations_return {S : Type} (env : Env S) (cl : Clientset)
    (ch : ChallengeRequest) (w : World S) :
  (exists err, fst (Present env {| client := Some cl |} ch w) = Returns err)
  /\ (exists err, fst (CleanUp env {| client := Some cl |} ch w) = Returns err).
Proof.
  rewrite Present_run, CleanUp_run.
  destruct (loadConfig env (Config ch)) as [cfg [e|]];
    [split; now eexists|].
  destruct (getAPIKey_initialised env cl cfg (ResourceNamespace ch) w)
    as [[apiKey [e|]] ->]; split; now eexists.
Qed.

(** X4.  On a solver whose client is set, [Present] and [CleanUp] never
    panic: whatever the configuration, the secret store and the provider
    do, each returns an error value, nil or not. *)
Theorem initialised_solver_returns {S : Type} (env : Env S) (cl : Clientset)
    (ch : ChallengeRequest) (w : World S) :
  (exists err, fst (Present env {| client := Some cl |} ch w) = Returns err)
  /\ (exists err, fst (CleanUp env {| client := Some cl |} ch w) = Returns err).
Proof. apply initialised_operations_return. Qed.

(** X5.  [Initialize] returns nil exactly when the clientset was built; the
    solver then holds that clientset, and [Present] and [CleanUp] on it
    return rather than panic.  When the clientset was not built,
    [Initialize] returns that error and leaves the solver as it was. *)
Theorem Initialize_then_operate {S : Type} (env : Env S)
    (newForConfig : result Clientset) (c : dodeDNSProviderSolver)
    (ch : ChallengeRequest) (w : World S) :
  match snd (Initialize newForConfig c) with
  | None =>
    exists cl,
      newForConfig = ok cl
      /\ fst (Initialize newForConfig c) = {| client := Some cl |}
      /\ (exists err,
            fst (Present env (fst (Initialize newForConfig c)) ch w)
            = Returns err)
      /\ (exists err,
            fst (CleanUp env (fst (Initialize newForConfig c)) ch w)
            = Returns err)
  | Some err =>
    newForConfig = fail err /\ fst (Initialize newForConfig c) = c
  end.
Proof.
  destruct newForConfig as [cl|err]; simpl; [|now split].
  exists cl. split; [reflexivity|]. split; [reflexivity|].
  apply initialised_operations_return.
Qed.

(** ** One request at most *)

Lemma makeRequest_requests {S : Type} (env : Env S) (method uri : string)
    (w : World S) :
  requests (snd (makeRequest env method uri w))
  = requests w ++ [DodeAPIURL +:+ uri].
Proof. now rewrite makeRequest_run. Qed.

(** X6.  A call of [Present] or of [CleanUp] hands [client.Get] one URL at
    most, whatever happens: the requests issued before are kept, in order,
    and at most one is added.  There is no retry. *)
Theorem at_most_one_request {S : Type} (env : Env S)
    (c : dodeDNSProviderSolver) (ch : ChallengeRequest) (w : World S) :
  (exists sent,
     requests (snd (Present env c ch w)) = requests w ++ sent
     /\ length sent <= 1)
  /\ (exists sent,
        requests (snd (CleanUp env c ch w)) = requests w ++ sent
        /\ length sent <= 1).
Proof.
  rewrite Present_run, CleanUp_run.
  assert (exists sent : list string,
            requests w = requests w ++ sent /\ length sent <= 1) as Hnone
    by (exists []; rewrite app_nil_r; simpl; split; [reflexivity|lia]).
  destruct (loadConfig env (Config ch)) as [cfg [e|]]; [now split|].
  destruct (fst (getAPIKey env c cfg (ResourceNamespace ch) w))
    as [[apiKey [e|]]|msg]; try now split.
  simpl. rewrite !makeRequest_requests.
  split; eexists; (split; [reflexivity|simpl; lia]).
Qed.

(** X7.  Success is never reported without the provider's word: when
    [Present] or [CleanUp] returns nil, the configuration decoded, a
    credential was found, exactly one request went out, built from that
    credential, and its answer decoded with [success=true]. *)
Theorem success_needs_request {S : Type} (env : Env S)
    (c : dodeDNSProviderSolver) (ch : ChallengeRequest) (w : World S) :
  (fst (Present env c ch w) = Returns None ->
   exists cfg apiKey,
     loadConfig env (Config ch) = (cfg, None)
     /\ fst (getAPIKey env c cfg (ResourceNamespace ch) w)
        = Returns (apiKey, None)
     /\ requests (snd (Present env c ch w))
        = requests w
          ++ [DodeAPIURL +:+ presentURI apiKey (ResolvedFQDN ch) (ChKey ch)]
     /\ answers_success env
          (presentURI apiKey (ResolvedFQDN ch) (ChKey ch)) w)
  /\ (fst (CleanUp env c ch w) = Returns None ->
      exists cfg apiKey,
        loadConfig env (Config ch) = (cfg, None)
        /\ fst (getAPIKey env c cfg (ResourceNamespace ch) w)
           = Returns (apiKey, None)
        /\ requests (snd (CleanUp env c ch w))
           = requests w ++ [DodeAPIURL +:+ cleanUpURI apiKey (ResolvedFQDN ch)]
        /\ answers_success env (cleanUpURI apiKey (ResolvedFQDN ch)) w).
Proof.
  rewrite Present_run, CleanUp_run.
  destruct (loadConfig env (Config ch)) as [cfg [e|]];
    [split; discriminate|].
  destruct (fst (getAPIKey env c cfg (ResourceNamespace ch) w))
    as [[apiKey [e|]]|msg] eqn:Hkey; try (split; discriminate).
  simpl. split; intros H; exists cfg, apiKey;
    (split; [reflexivity|]); (split; [exact Hkey|]);
    (split; [apply makeRequest_requests|]).
  - now apply (makeRequest_interpretation env _ w _ eq_refl).
  - now apply (makeRequest_interpretation env _ w _ eq_refl).
Qed.

Lemma success_needs_request_witness :
  exists apiKey,
    requests (snd (Present (demo.env demo.accepts) demo.solver demo.challenge
                     demo.world0))
    = [DodeAPIURL +:+ presentURI apiKey "_acme-challenge.example.com."
                        "txt-value-123"]
    /\ requests (snd (CleanUp (demo.env demo.accepts) demo.solver
                        demo.challenge demo.world0))
       = [DodeAPIURL +:+ cleanUpURI apiKey "_acme-challenge.example.com."].
Proof.
  destruct (proj1 (success_needs_request (demo.env demo.accepts) demo.solver
                     demo.challenge demo.world0) eq_refl)
    as (cfg & apiKey & Hcfg & Hkey & Hreq & _).
  destruct (proj2 (success_needs_request (demo.env demo.accepts) demo.solver
                     demo.challenge demo.world0) eq_refl)
    as (cfg' & apiKey' & Hcfg' & Hkey' & Hreq' & _).
  exists apiKey. split; [exact Hreq|].
  rewrite Hreq'.
  rewrite Hcfg in Hcfg'. injection Hcfg' as <-.
  rewrite Hkey in Hkey'. injection Hkey' as <-.
  reflexivity.
Defined.

(** ** [makeRequest]: the flag, the error and the method *)

(** X8.  [makeRequest] always returns, having handed [client.Get] exactly
    one URL, and its two results go together: the flag is true exactly
    when the error is nil. *)
Theorem makeRequest_flag_and_error {S : Type} (env : Env S)
    (method uri : string) (w : World S) :
  exists b err,
    fst (makeRequest env method uri w) = Returns (b, err)
    /\ (b = true <-> err = None)
    /\ requests (snd (makeRequest env method uri w))
       = requests w ++ [DodeAPIURL +:+ uri].
Proof.
  rewrite makeRequest_run. simpl.
  destruct (fst (http_Get env (DodeAPIURL +:+ uri) (remote w))) as [resp|e].
  - destruct (json_Decode env (Body resp) zeroAPIResponse) as [r [e|]].
    + eexists _, _. split; [reflexivity|]. now split.
    + destruct (Success r); eexists _, _; (split; [reflexivity|]); now split.
  - eexists _, _. split; [reflexivity|]. now split.
Qed.

(** X9.  The [method] argument of [makeRequest] never reaches the
    transport, which is always [client.Get]: two calls that differ in
    [method] only leave the same world, return the same flag, and fail or
    succeed together.  Only the text of the error can differ. *)
Theorem makeRequest_method_unused {S : Type} (env : Env S)
    (m1 m2 uri : string) (w : World S) :
  snd (makeRequest env m1 uri w) = snd (makeRequest env m2 uri w)
  /\ exists b e1 e2,
       fst (makeRequest env m1 uri w) = Returns (b, e1)
       /\ fst (makeRequest env m2 uri w) = Returns (b, e2)
       /\ (e1 = None <-> e2 = None).
Proof.
  rewrite !makeRequest_run. simpl. split; [reflexivity|].
  destruct (fst (http_Get env (DodeAPIURL +:+ uri) (remote w))) as [resp|e].
  - destruct (json_Decode env (Body resp) zeroAPIResponse) as [r [e|]].
    + eexists _, _, _. split; [reflexivity|]. split; [reflexivity|]. now split.
    + destruct (Success r); eexists _, _, _;
        (split; [reflexivity|]); (split; [reflexivity|]); now split.
  - eexists _, _, _. split; [reflexivity|]. split; [reflexivity|]. now split.
Qed.

(** X10.  An answer that decodes without setting [success] counts as a
    rejection: when the decoder leaves the response at its zero value and
    reports no error, [makeRequest] returns false and an error whose text
    ends, after the quoted URI, with [" "] and an empty provider text. *)
Theorem zero_response_is_rejection {S : Type} (env : Env S)
    (method uri : string) (w : World S) (resp : Response) :
  fst (http_Get env (DodeAPIURL +:+ uri) (remote w)) = ok resp ->
  json_Decode env (Body resp) zeroAPIResponse = (zeroAPIResponse, None) ->
  fst (makeRequest env method uri w)
  = Returns (false, Some ("DODE API error for " +:+ method +:+ " "
                          +:+ fmt_q env uri +:+ " ")).
Proof.
  intros Hget Hdec. rewrite makeRequest_run, Hget. simpl. rewrite Hdec.
  simpl. reflexivity.
Qed.

Lemma zero_response_is_rejection_witness :
  fst (makeRequest edge.env "GET" "?token=t&domain=example.com&action=delete"
         demo.world0)
  = Returns (false,
             Some ("DODE API error for GET " +:+ demo.dq
                   +:+ "?token=t&domain=example.com&action=delete"
                   +:+ demo.dq +:+ " ")).
Proof.
  apply (zero_response_is_rejection edge.env "GET"
           "?token=t&domain=example.com&action=delete" demo.world0
           {| StatusCode := 200; Body := "{}" |}); reflexivity.
Defined.

(** ** Edge cases of the credential *)

(** X11.  A secret entry that is there and empty is a credential like any
    other: [getAPIKey] returns the empty string with a nil error, and
    [Present] sends its request with an empty [token] parameter. *)
Theorem empty_credential_is_sent {S : Type} (env : Env S) (cl : Clientset)
    (ch : ChallengeRequest) (w : World S) (cfg : dodeDNSProviderConfig)
    (sec : Secret) :
  loadConfig env (Config ch) = (cfg, None) ->
  Secrets_Get cl (ResourceNamespace ch) (Name (APITokenSecretRef cfg)) = ok sec ->
  Data sec !! Key (APITokenSecretRef cfg) = Some "" ->
  fst (getAPIKey env {| client := Some cl |} cfg (ResourceNamespace ch) w)
  = Returns ("", None)
  /\ requests (snd (Present env {| client := Some cl |} ch w))
     = requests w ++ ["https://www.do.de/api/letsencrypt?token=&domain="
                      +:+ removeDOT (ResolvedFQDN ch)
                      +:+ "&value=" +:+ ChKey ch].
Proof.
  intros Hcfg Hget Hdata.
  assert (fst (getAPIKey env {| client := Some cl |} cfg
                 (ResourceNamespace ch) w) = Returns ("", None)) as Hkey
    by (unfold getAPIKey; simpl; now rewrite Hget, Hdata).
  split; [exact Hkey|].
  rewrite Present_run, Hcfg, Hkey. simpl. now rewrite makeRequest_requests.
Qed.

Lemma empty_credential_is_sent_witness :
  requests (snd (Present (demo.env demo.accepts)
                   {| client := Some edge.clientset |} demo.challenge
                   demo.world0))
  = ["https://www.do.de/api/letsencrypt?token=&domain=_acme-challenge.example.com&value=txt-value-123"].
Proof.
  apply (proj2 (empty_credential_is_sent (demo.env demo.accepts)
                  edge.clientset demo.challenge demo.world0
                  {| APITokenSecretRef :=
                       {| Name := "dode-credentials"; Key := "api-token" |} |}
                  {| Data := {[ "api-token" := "" ]} |}
                  eq_refl eq_refl eq_refl)).
Defined.

(** X12.  A challenge without configuration is served with the zero
    configuration: the solver looks up the secret whose name is empty, in
    the namespace of the challenge, and in it the entry whose key is empty.
    When the store has no such secret the operations fail with
    "unable to get secret ``; ..." and send nothing. *)
Theorem no_config_looks_up_empty_name {S : Type} (env : Env S)
    (cl : Clientset) (ch : ChallengeRequest) (w : World S) :
  Config ch = None ->
  let c := {| client := Some cl |} in
  match Secrets_Get cl (ResourceNamespace ch) "" with
  | fail err =>
    Present env c ch w
    = (Returns (Some ("unable to get secret ``; " +:+ err)), w)
    /\ CleanUp env c ch w
       = (Returns (Some ("unable to get secret ``; " +:+ err)), w)
  | ok sec =>
    match Data sec !! "" with
    | None =>
      exists msg,
        Present env c ch w = (Returns (Some msg), w)
        /\ CleanUp env c ch w = (Returns (Some msg), w)
    | Some apiKey =>
      requests (snd (Present env c ch w))
      = requests w
        ++ [DodeAPIURL +:+ presentURI apiKey (ResolvedFQDN ch) (ChKey ch)]
      /\ requests (snd (CleanUp env c ch w))
         = requests w ++ [DodeAPIURL +:+ cleanUpURI apiKey (ResolvedFQDN ch)]
    end
  end.
Proof.
  intros Hnone c. rewrite Present_run, CleanUp_run, Hnone.
  unfold loadConfig, getAPIKey. simpl.
  destruct (Secrets_Get cl (ResourceNamespace ch) "") as [sec|err];
    [|now split].
  destruct (Data sec !! "") as [apiKey|]; simpl.
  - now rewrite !makeRequest_requests.
  - eexists. split; reflexivity.
Qed.

Lemma no_config_looks_up_empty_name_witness :
  Present (demo.env demo.accepts) demo.solver edge.bare demo.world0
  = (Returns (Some ("unable to get secret ``; secrets " +:+ demo.dq +:+ demo.dq
                    +:+ " not found")),
     demo.world0).
Proof.
  apply (proj1 (no_config_looks_up_empty_name (demo.env demo.accepts)
                  demo.clientset edge.bare demo.world0 eq_refl)).
Defined.

(** ** How the operations compose *)

(** X13.  [Present] followed by [CleanUp] for the same challenge, with the
    configuration decoded and the credential resolved, sends two requests
    in this order: the one that publishes, then the one that deletes, both
    with the same credential and domain.  The delete is answered by the
    provider in the state the publish left, whatever the publish returned. *)
Theorem Present_then_CleanUp {S : Type} (env : Env S)
    (c : dodeDNSProviderSolver) (ch : ChallengeRequest) (w : World S)
    (cfg : dodeDNSProviderConfig) (apiKey : string) :
  loadConfig env (Config ch) = (cfg, None) ->
  fst (getAPIKey env c cfg (ResourceNamespace ch) w) = Returns (apiKey, None) ->
  let p := DodeAPIURL +:+ presentURI apiKey (ResolvedFQDN ch) (ChKey ch) in
  let d := DodeAPIURL +:+ cleanUpURI apiKey (ResolvedFQDN ch) in
  let after := snd (CleanUp env c ch (snd (Present env c ch w))) in
  requests after = requests w ++ [p; d]
  /\ remote after = snd (http_Get env d (snd (http_Get env p (remote w)))).
Proof.
  intros Hcfg Hkey p d after. unfold after.
  rewrite (CleanUp_run env c ch), Hcfg.
  rewrite (getAPIKey_resolved_anywhere env c cfg _ w _ Hkey).
  rewrite (Present_run env c ch w), Hcfg, Hkey. simpl.
  rewrite !makeRequest_run. simpl. rewrite <- app_assoc. now split.
Qed.

Lemma Present_then_CleanUp_witness :
  requests (snd (CleanUp (demo.env demo.rejects) demo.solver demo.challenge
                   (snd (Present (demo.env demo.rejects) demo.solver
                           demo.challenge demo.world0))))
  = ["https://www.do.de/api/letsencrypt?token=s3cr3t&domain=_acme-challenge.example.com&value=txt-value-123";
     "https://www.do.de/api/letsencrypt?token=s3cr3t&domain=_acme-challenge.example.com&action=delete"].
Proof.
  apply (proj1 (Present_then_CleanUp (demo.env demo.rejects) demo.solver
                  demo.challenge demo.world0
                  {| APITokenSecretRef :=
                       {| Name := "dode-credentials"; Key := "api-token" |} |}
                  "s3cr3t" eq_refl eq_refl)).
Defined.

(** X14.  [CleanUp] never reads the TXT value of the challenge: two
    challenges that differ in it only get the same result and leave the
    same world, in every case.  Deletion is by domain. *)
Theorem CleanUp_ignores_value {S : Type} (env : Env S)
    (c : dodeDNSProviderSolver) (ch : ChallengeRequest) (w : World S)
    (value : string) :
  CleanUp env c {| ResolvedFQDN := ResolvedFQDN ch;
                   ChKey := value;
                   ResourceNamespace := ResourceNamespace ch;
                   Config := Config ch |} w
  = CleanUp env c ch w.
Proof. rewrite !CleanUp_run. reflexivity. Qed.

(** X15.  Over a provider that is idempotent, a second [CleanUp] with the
    same arguments returns what the first returned and leaves the remote
    state as the first left it; it sends again what the first sent. *)
Theorem CleanUp_idempotent {S : Type} (env : Env S)
    (c : dodeDNSProviderSolver) (ch : ChallengeRequest) (w : World S) :
  idempotent_provider env ->
  let once := CleanUp env c ch w in
  let twice := CleanUp env c ch (snd once) in
  fst twice = fst once
  /\ remote (snd twice) = remote (snd once)
  /\ exists sent,
       requests (snd once) = requests w ++ sent
       /\ requests (snd twice) = requests (snd once) ++ sent.
Proof.
  intros Hidem once twice. unfold twice, once.
  rewrite (CleanUp_run env c ch (snd _)), (CleanUp_run env c ch w).
  assert (forall w' : World S,
            exists sent : list string,
              requests w' = requests w' ++ sent
              /\ requests w' = requests w' ++ sent) as Hnone
    by (intros w'; exists []; now rewrite app_nil_r).
  destruct (loadConfig env (Config ch)) as [cfg [e|]];
    [simpl; split; [reflexivity|]; split; [reflexivity|]; apply Hnone|].
  destruct (fst (getAPIKey env c cfg (ResourceNamespace ch) w))
    as [[apiKey [e|]]|msg] eqn:Hkey;
    rewrite (getAPIKey_resolved_anywhere env c cfg _ w _ Hkey); simpl;
    try (split; [reflexivity|]; split; [reflexivity|]; apply Hnone).
  rewrite !makeRequest_run. simpl. rewrite Hidem.
  split; [reflexivity|]. split; [reflexivity|]. now eexists.
Qed.

Lemma CleanUp_idempotent_witness :
  let once :=
    CleanUp (demo.env demo.accepts) demo.solver demo.challenge demo.world0 in
  let twice :=
    CleanUp (demo.env demo.accepts) demo.solver demo.challenge (snd once) in
  fst twice = fst once /\ remote (snd twice) = remote (snd once).
Proof.
  intros once twice.
  destruct (CleanUp_idempotent (demo.env demo.accepts) demo.solver
              demo.challenge demo.world0
              (demo_provider_idempotent demo.accepts)) as (H1 & H2 & _).
  split; [exact H1 | exact H2].
Defined.

(** X16.  The operations differ in their request only.  A call of [Present]
    that sends nothing (the configuration did not decode, the credential was
    not resolved, or the client is nil) ends as [CleanUp] ends for the same
    challenge: same result, error or panic, and same world. *)
Theorem operations_fail_alike {S : Type} (env : Env S)
    (c : dodeDNSProviderSolver) (ch : ChallengeRequest) (w : World S) :
  requests (snd (Present env c ch w)) = requests w ->
  CleanUp env c ch w = Present env c ch w.
Proof.
  rewrite Present_run, CleanUp_run.
  destruct (loadConfig env (Config ch)) as [cfg [e|]]; [reflexivity|].
  destruct (fst (getAPIKey env c cfg (ResourceNamespace ch) w))
    as [[apiKey [e|]]|msg]; try reflexivity.
  simpl. rewrite makeRequest_requests. intros H.
  apply (f_equal (@length string)) in H. rewrite length_app in H.
  simpl in H. lia.
Qed.

Lemma operations_fail_alike_witness :
  CleanUp (demo.env demo.accepts) demo.solver edge.bare demo.world0
  = Present (demo.env demo.accepts) demo.solver edge.bare demo.world0.
Proof.
  apply (operations_fail_alike (demo.env demo.accepts) demo.solver edge.bare
           demo.world0).
  reflexivity.
Defined.

(** X17.  Resolving the credential reads the secret store and nothing
    else: [getAPIKey] leaves the world as it was, issues no request, and
    when it returns an error the string it returns with it is empty. *)
Theorem getAPIKey_reads_only {S : Type} (env : Env S)
    (c : dodeDNSProviderSolver) (cfg : dodeDNSProviderConfig) (ns : string)
    (w : World S) :
  snd (getAPIKey env c cfg ns w) = w
  /\ forall apiKey err,
       fst (getAPIKey env c cfg ns w) = Returns (apiKey, Some err) ->
       apiKey = "".
Proof.
  split; [apply getAPIKey_world|].
  unfold getAPIKey. destruct (client c) as [cl|]; [|discriminate].
  destruct (Secrets_Get cl ns _) as [sec|e].
  - destruct (Data sec !! _); [discriminate|]. now intros apiKey err [= <- _].
  - now intros apiKey err [= <- _].
Qed.

Lemma getAPIKey_reads_only_witness :
  snd (getAPIKey (demo.env demo.accepts) demo.solver
         {| APITokenSecretRef := {| Name := "absent"; Key := "api-token" |} |}
         "cert-manager" demo.world0) = demo.world0
  /\ match fst (getAPIKey (demo.env demo.accepts) demo.solver
                  {| APITokenSecretRef :=
                       {| Name := "absent"; Key := "api-token" |} |}
                  "cert-manager" demo.world0) with
     | Returns (apiKey, Some _) => apiKey = ""
     | _ => False
     end.
Proof.
  destruct (getAPIKey_reads_only (demo.env demo.accepts) demo.solver
              {| APITokenSecretRef :=
                   {| Name := "absent"; Key := "api-token" |} |}
              "cert-manager" demo.world0) as [Hw Hzero].
  split; [exact Hw|].
  exact (Hzero "" _ eq_refl).
Defined.
